(** * model_development.ipynb: metric scraping and detection rendering

    A shallow embedding of the three Python functions of the notebook that
    carry logic of their own,

      - [set_hyperparameters]       (cell "Set Hyperparameters"),
      - [plot_object_detection_log] (the mAP log scraper),
      - [visualize_detection] and [show_hb_prediction] (the renderer),

    together with the fragments of the Python run time they rely on:
    [str.find], slicing, [float(str)], [int(x)], [max], comparison and
    multiplication of dynamically typed numbers, subscripting, iteration
    and tuple unpacking.

    Python floats are IEEE-754 binary64 values; they are represented by
    [spec_float] at precision 53 and maximal exponent 1024, with the
    operations of [SpecFloat].  Python strings are sequences of code
    points; the model keeps the code points below 256 (type [ascii]).
    Calls into boto3, SageMaker and matplotlib are external: what the
    notebook hands to them is recorded in the [world] (printed lines,
    artists added to the current figure, hyperparameters stored on the
    estimator), and what it reads from them is an input of the model: the
    log events of the training job, the size of the image, the decoded
    JSON response of the endpoint.  The notebook uses [json], [runtime]
    and [classes_df] without defining them; [OBJECT_CATEGORIES], which is
    computed from [classes_df], is a parameter. *)

From Stdlib Require Import ZArith String Ascii List Bool Lia.
From Stdlib Require Import Floats.SpecFloat Floats.PrimFloat Floats.FloatOps.
From Stdlib Require Import DecimalString.
From stdpp Require Import base option list gmap.
Import ListNotations.

Set Warnings "-register-all,-inexact-float,-clear-no-such-hyp".

Local Open Scope string_scope.
Local Open Scope list_scope.
Local Open Scope Z_scope.

(** ** Python strings *)

Module PyStr.

(** [len(s)] *)
Definition len (s : string) : Z := Z.of_nat (String.length s).

(** [s.find(sub)]: lowest index at which [sub] occurs, [-1] if none. *)
Fixpoint find_from (sub s : string) (i : Z) : Z :=
  if String.prefix sub s then i
  else match s with
       | EmptyString => -1
       | String _ s' => find_from sub s' (i + 1)
       end.

Definition find (s sub : string) : Z := find_from sub s 0.

(** [sub in s] *)
Definition contains (sub s : string) : bool := 0 <=? find s sub.

(** Index normalisation of a slice bound, as [PySlice_AdjustIndices] does
    for step 1: negative bounds count from the end, then clamp. *)
Definition adjust (n i : Z) : Z :=
  if i <? 0 then Z.max 0 (i + n) else Z.min i n.

(** [s[a:b]] *)
Definition slice (s : string) (a b : Z) : string :=
  let n := len s in
  let a' := adjust n a in
  let b' := adjust n b in
  if a' <? b' then String.substring (Z.to_nat a') (Z.to_nat (b' - a')) s
  else "".

(** [s * n] for an int [n]: repetition, empty when [n <= 0]. *)
Definition repeat (s : string) (n : Z) : string :=
  Nat.iter (Z.to_nat n) (String.append s) "".

(** [str(z)] for an int. *)
Definition of_int (z : Z) : string := NilZero.string_of_int (Z.to_int z).

End PyStr.

(** ** Python numbers *)

Abbreviation float := spec_float.

Module PyNum.

Definition prec : Z := 53.
Definition emax : Z := 1024.

Definition is_nan (f : float) : bool :=
  match f with S754_nan => true | _ => false end.

(** [x < y] on floats *)
Definition flt (x y : float) : bool := SFltb x y.
(** [x > y] on floats *)
Definition fgt (x y : float) : bool := SFltb y x.
(** [x >= y] on floats *)
Definition fge (x y : float) : bool := SFleb y x.

Definition fmul (x y : float) : float := SFmul prec emax x y.

(** Exact comparison of an int with a float, as [float_richcompare] does
    when one side is an int: no rounding of the int. *)
Definition Z_compare_float (z : Z) (f : float) : option comparison :=
  match f with
  | S754_nan => None
  | S754_infinity s => Some (if s then Gt else Lt)
  | S754_zero _ => Some (z ?= 0)
  | S754_finite s m e =>
      let v := if s then Z.neg m else Z.pos m in
      Some (if 0 <=? e then z ?= v * 2 ^ e else z * 2 ^ (- e) ?= v)
  end.

Definition Z_lt_float (z : Z) (f : float) : bool :=
  match Z_compare_float z f with Some Lt => true | _ => false end.

(** Truncation toward zero of a finite float. *)
Definition trunc (s : bool) (m : positive) (e : Z) : Z :=
  let a := if 0 <=? e then Z.pos m * 2 ^ e else Z.pos m / 2 ^ (- e) in
  if s then - a else a.

(** Nearest float to an int, ties to even ([PyLong_AsDouble]); the result
    is an infinity exactly when Python raises [OverflowError]. *)
Definition of_Z (z : Z) : float := binary_normalize prec emax z 0 false.

(** Nearest float to [m * 10 ^ e], ties to even (what [strtod] returns). *)
Definition of_decimal (neg : bool) (m : Z) (e : Z) : float :=
  match m with
  | Z0 => S754_zero neg
  | Zpos p =>
      if 0 <=? e then
        binary_normalize prec emax ((if neg then Z.neg p else Z.pos p) * 10 ^ e) 0 neg
      else
        let '(q, e', l) :=
          SFdiv_core_binary prec emax (Zpos p) 0 (10 ^ (- e)) 0 in
        binary_round_aux prec emax neg q e' l
  | Zneg _ => S754_nan
  end.

(** *** [float(str)] and [int(str)]

    The grammar is CPython's: surrounding whitespace is stripped, single
    underscores may separate digits (PEP 515), and what remains is either
    a signed decimal literal with an optional exponent or a signed
    [inf], [infinity] or [nan] in any letter case.  [None] stands for
    [ValueError].  The limit on the number of digits that [int(str)] has
    since Python 3.11 is left out. *)

Definition code (c : ascii) : Z := Z.of_N (N_of_ascii c).

Definition is_space (c : ascii) : bool :=
  let n := code c in
  ((9 <=? n) && (n <=? 13)) || (n =? 32) || (n =? 133) || (n =? 160).

Definition is_digit (c : ascii) : bool :=
  let n := code c in (48 <=? n) && (n <=? 57).

Definition lower (c : ascii) : ascii :=
  let n := code c in
  if (65 <=? n) && (n <=? 90) then ascii_of_N (Z.to_N (n + 32)) else c.

Fixpoint lstrip (cs : list ascii) : list ascii :=
  match cs with
  | c :: cs' => if is_space c then lstrip cs' else cs
  | [] => []
  end.

Definition strip (cs : list ascii) : list ascii :=
  rev (lstrip (rev (lstrip cs))).

(** Removes the underscores, refusing one that does not stand between
    two digits; [prev] is the character before [cs]. *)
Fixpoint drop_underscores (prev : ascii) (cs : list ascii)
  : option (list ascii) :=
  match cs with
  | [] => if Ascii.eqb prev "_" then None else Some []
  | c :: cs' =>
      if Ascii.eqb c "_" then
        if is_digit prev then drop_underscores c cs' else None
      else if Ascii.eqb prev "_" && negb (is_digit c) then None
      else cons c <$> drop_underscores c cs'
  end.

Definition sign (cs : list ascii) : bool * list ascii :=
  match cs with
  | "-"%char :: r => (true, r)
  | "+"%char :: r => (false, r)
  | _ => (false, cs)
  end.

Fixpoint span_digits (cs : list ascii) : list ascii * list ascii :=
  match cs with
  | c :: cs' =>
      if is_digit c then
        let '(ds, r) := span_digits cs' in (c :: ds, r)
      else ([], cs)
  | [] => ([], [])
  end.

Definition digits_val (ds : list ascii) : Z :=
  fold_left (fun acc c => 10 * acc + (code c - 48)) ds 0.

Definition parse_decimal (cs : list ascii) : option (bool * Z * Z) :=
  let '(neg, cs1) := sign cs in
  let '(ip, cs2) := span_digits cs1 in
  let '(fp, cs3) :=
    match cs2 with
    | "."%char :: r => span_digits r
    | _ => ([], cs2)
    end in
  let m := digits_val (ip ++ fp) in
  let k := Z.of_nat (length fp) in
  match ip ++ fp with
  | [] => None
  | _ :: _ =>
      match cs3 with
      | [] => Some (neg, m, - k)
      | c :: r =>
          if Ascii.eqb (lower c) "e" then
            let '(eneg, r1) := sign r in
            let '(ed, r2) := span_digits r1 in
            match ed, r2 with
            | _ :: _, [] =>
                let x := digits_val ed in
                Some (neg, m, (if eneg then - x else x) - k)
            | _, _ => None
            end
          else None
      end
  end.

Definition parse_inf_or_nan (cs : list ascii) : option float :=
  let '(neg, r) := sign cs in
  let w := string_of_list_ascii (map lower r) in
  if String.eqb w "inf" || String.eqb w "infinity" then
    Some (S754_infinity neg)
  else if String.eqb w "nan" then Some S754_nan
  else None.

Definition float_of_string (s : string) : option float :=
  cs ← drop_underscores "000" (strip (list_ascii_of_string s));
  match parse_decimal cs with
  | Some (neg, m, e) => Some (of_decimal neg m e)
  | None => parse_inf_or_nan cs
  end.

Definition int_of_string (s : string) : option Z :=
  let '(neg, r) := sign (strip (list_ascii_of_string s)) in
  ds ← drop_underscores "000" r;
  match ds with
  | [] => None
  | _ :: _ =>
      if forallb is_digit ds then
        Some (if neg then - digits_val ds else digits_val ds)
      else None
  end.

End PyNum.

(** ** Python values, exceptions and the world *)

(** The dynamically typed values that reach the notebook's functions: what
    [json.loads] can return, and the arguments the cells pass.  A [dict] is
    kept as its items in insertion order, with distinct keys. *)
Inductive pyval : Type :=
| PNone
| PBool (b : bool)
| PInt (z : Z)
| PFloat (f : float)
| PStr (s : string)
| PList (l : list pyval)
| PDict (d : list (string * pyval)).

(** The exceptions the modelled code can raise, one constructor per raising
    operation; [exn_class] gives the Python class. *)
Inductive exn : Type :=
| ValueError_float (s : string)       (* float(s): could not convert string to float *)
| ValueError_max_empty                (* max([]): empty sequence *)
| ValueError_unpack (n : nat)         (* n values unpacked into 6 targets *)
| ValueError_int_literal (s : string) (* int(s): invalid literal *)
| ValueError_int_nan                  (* int(nan) *)
| OverflowError_int_inf               (* int(inf) *)
| OverflowError_int_to_float          (* int too large to convert to float *)
| TypeError_not_iterable
| TypeError_not_comparable
| TypeError_int_arg
| TypeError_mul
| TypeError_subscript
| ValueError_format                   (* format code 'f' on a str *)
| TypeError_format                    (* format code 'f' unsupported *)
| KeyError (k : string)
| IndexError.

Variant pyclass := ValueError | OverflowError | TypeError | LookupError.

Definition exn_class (e : exn) : pyclass :=
  match e with
  | ValueError_float _ | ValueError_max_empty | ValueError_unpack _
  | ValueError_int_literal _ | ValueError_int_nan | ValueError_format =>
      ValueError
  | OverflowError_int_inf | OverflowError_int_to_float => OverflowError
  | TypeError_not_iterable | TypeError_not_comparable | TypeError_int_arg
  | TypeError_mul | TypeError_subscript | TypeError_format => TypeError
  | KeyError _ | IndexError => LookupError
  end.

Definition color : Type := float * float * float.

(** What the notebook hands to the outside, in the order it does so. *)
Inductive event : Type :=
| PrintHyperparameters (shown : list pyval)
| SetHyperparameters (kwargs : list (string * pyval))
| PrintTitle (title : string)
| PrintMaximum (v : float)                    (* "Maximum mAP: %f " *)
| Subplots
| Xlabel (s : string)
| Ylabel (s : string)
| Plot (xs : list Z) (ys : list float) (label : string)
| Legend
| SetTicks
| Imshow (img_file : string)
| AddPatch (xy : Z * Z) (w h : Z) (edgecolor : color)   (* plt.Rectangle *)
| PrintDetection (class_name : string) (score : pyval)  (* "{},{}" *)
| AddText (x y : Z) (class_name : string) (score : pyval) (facecolor : color)
| PrintCount (num_detections : Z)             (* "Number of detections: " *)
| Show.

(** [dets_obj] is the object the name [dets] refers to during a call of
    [visualize_detection]: a Python list is mutable and shared with the
    caller.  [rng_pos] counts the calls of [random.random()] so far. *)
Record world : Type := World {
  trace : list event;
  rng_pos : nat;
  dets_obj : pyval
}.

(** State and exceptions: a raise keeps the effects made so far. *)
Definition M (A : Type) : Type := world -> (exn + A) * world.

Definition ret {A} (a : A) : M A := fun w => (inr a, w).
Definition raise {A} (e : exn) : M A := fun w => (inl e, w).
Definition bind {A B} (m : M A) (k : A -> M B) : M B :=
  fun w => match m w with
           | (inr a, w') => k a w'
           | (inl e, w') => (inl e, w')
           end.
Definition lift {A} (r : exn + A) : M A := fun w => (r, w).
Definition emit (e : event) : M unit :=
  fun w => (inr tt, World (trace w ++ [e]) (rng_pos w) (dets_obj w)).
Definition get : M world := fun w => (inr w, w).

Declare Scope py_scope.
Delimit Scope py_scope with py.
Notation "'let*' x := m 'in' k" := (bind m (fun x => k))
  (at level 10, x name, m at level 100, k at level 200) : py_scope.
Notation "'let*' ' p := m 'in' k" := (bind m (fun x => match x with p => k end))
  (at level 10, p pattern, m at level 100, k at level 200) : py_scope.
Notation "m ;;; k" := (bind m (fun _ => k))
  (at level 100, k at level 200, right associativity) : py_scope.
Local Open Scope py_scope.

(** ** Run-time operations on values *)

Module Py.

(** [iter(v)] run to exhaustion *)
Definition iter (v : pyval) : exn + list pyval :=
  match v with
  | PList l => inr l
  | PStr s => inr (map (fun c => PStr (String c EmptyString)) (list_ascii_of_string s))
  | PDict d => inr (map (fun kv => PStr (fst kv)) d)
  | PNone | PBool _ | PInt _ | PFloat _ => inl TypeError_not_iterable
  end.

(** [(a, b, c, d, e, f) = v] *)
Definition unpack6 (v : pyval)
  : exn + (pyval * pyval * pyval * pyval * pyval * pyval) :=
  match iter v with
  | inl e => inl e
  | inr [a; b; c; d; e; f] => inr (a, b, c, d, e, f)
  | inr l => inl (ValueError_unpack (length l))
  end.

Definition of_bool (b : bool) : Z := if b then 1 else 0.

(** [v < t] for a float [t] *)
Definition lt_float (v : pyval) (t : float) : exn + bool :=
  match v with
  | PFloat f => inr (PyNum.flt f t)
  | PInt z => inr (PyNum.Z_lt_float z t)
  | PBool b => inr (PyNum.Z_lt_float (of_bool b) t)
  | PNone | PStr _ | PList _ | PDict _ => inl TypeError_not_comparable
  end.

(** [int(v)] *)
Definition int (v : pyval) : exn + Z :=
  match v with
  | PInt z => inr z
  | PBool b => inr (of_bool b)
  | PFloat (S754_zero _) => inr 0
  | PFloat (S754_finite s m e) => inr (PyNum.trunc s m e)
  | PFloat (S754_infinity _) => inl OverflowError_int_inf
  | PFloat S754_nan => inl ValueError_int_nan
  | PStr s => match PyNum.int_of_string s with
              | Some z => inr z
              | None => inl (ValueError_int_literal s)
              end
  | PNone | PList _ | PDict _ => inl TypeError_int_arg
  end.

(** [v * n] for an int [n] *)
Definition mul_int (v : pyval) (n : Z) : exn + pyval :=
  match v with
  | PInt z => inr (PInt (z * n))
  | PBool b => inr (PInt (of_bool b * n))
  | PFloat f =>
      match PyNum.of_Z n with
      | S754_infinity _ => inl OverflowError_int_to_float
      | g => inr (PFloat (PyNum.fmul f g))
      end
  | PStr s => inr (PStr (PyStr.repeat s n))
  | PList l => inr (PList (concat (replicate (Z.to_nat n) l)))
  | PNone | PDict _ => inl TypeError_mul
  end.

(** [v[key]] for a string [key] *)
Fixpoint assoc (key : string) (d : list (string * pyval)) : option pyval :=
  match d with
  | [] => None
  | (k, v) :: d' => if String.eqb k key then Some v else assoc key d'
  end.

Definition getitem_str (v : pyval) (key : string) : exn + pyval :=
  match v with
  | PDict d => match assoc key d with
               | Some x => inr x
               | None => inl (KeyError key)
               end
  | _ => inl TypeError_subscript
  end.

(** [l[i]] on a list: negative indices count from the end. *)
Definition getitem_list {A} (l : list A) (i : Z) : exn + A :=
  let n := Z.of_nat (length l) in
  let j := if i <? 0 then i + n else i in
  if (0 <=? j) && (j <? n) then
    match l !! Z.to_nat j with
    | Some x => inr x
    | None => inl IndexError
    end
  else inl IndexError.

(** ["{:.3f}".format(v)]: the text is not modelled, only whether the
    formatting raises. *)
Definition format_f (v : pyval) : exn + unit :=
  match v with
  | PFloat _ | PBool _ => inr tt
  | PInt z => match PyNum.of_Z z with
              | S754_infinity _ => inl OverflowError_int_to_float
              | _ => inr tt
              end
  | PStr _ => inl ValueError_format
  | PNone | PList _ | PDict _ => inl TypeError_format
  end.

(** [max(l)]: the first of the greatest items, found with [>]. *)
Definition max (l : list float) : exn + float :=
  match l with
  | [] => inl ValueError_max_empty
  | x :: r => inr (fold_left (fun m y => if PyNum.fgt y m then y else m) r x)
  end.

(** [range(n)] *)
Definition range (n : nat) : list Z := map Z.of_nat (seq 0 n).

End Py.

(** ** Cell "Set Hyperparameters" *)

Record hyperparameter_args : Type := Hyper {
  num_classes : pyval;
  num_training_samples : pyval;
  mini_batch_size : pyval;
  num_epochs : pyval;
  learning_rate : pyval;
  lr_steps : pyval;
  lr_scheduler_factor : pyval;
  base_network : pyval;
  use_pretrained_model : pyval;
  optimizer : pyval;
  momentum : pyval;
  weight_decay : pyval;
  overlap_threshold : pyval;
  nms_threshold : pyval;
  image_shape : pyval;
  label_width : pyval
}.

(** A call with the seven positional arguments; the rest take the defaults
    of the [def]. *)
Definition positional (a b c d e f g : pyval) : hyperparameter_args :=
  Hyper a b c d e f g
        (PStr "resnet-50") (PInt 1) (PStr "sgd")
        (PFloat (PyNum.of_decimal false 9 (-1)))
        (PFloat (PyNum.of_decimal false 5 (-4)))
        (PFloat (PyNum.of_decimal false 5 (-1)))
        (PFloat (PyNum.of_decimal false 45 (-2)))
        (PInt 512) (PInt 350).

(** [od_model.set_hyperparameters] belongs to the SageMaker SDK; the call
    is recorded with its keyword arguments and returns. *)
Definition set_hyperparameters (a : hyperparameter_args) : M unit :=
  emit (PrintHyperparameters
          [num_classes a; num_training_samples a; mini_batch_size a;
           num_epochs a; learning_rate a; lr_steps a; lr_scheduler_factor a;
           base_network a; optimizer a; momentum a; weight_decay a;
           overlap_threshold a; nms_threshold a]) ;;;
  emit (SetHyperparameters
          [("base_network", base_network a);
           ("use_pretrained_model", use_pretrained_model a);
           ("num_classes", num_classes a);
           ("mini_batch_size", mini_batch_size a);
           ("epochs", num_epochs a);
           ("learning_rate", learning_rate a);
           ("lr_scheduler_step", lr_steps a);
           ("lr_scheduler_factor", lr_scheduler_factor a);
           ("optimizer", optimizer a);
           ("momentum", momentum a);
           ("weight_decay", weight_decay a);
           ("overlap_threshold", overlap_threshold a);
           ("nms_threshold", nms_threshold a);
           ("image_shape", image_shape a);
           ("label_width", label_width a);
           ("num_training_samples", num_training_samples a)]).

(** ** The mAP log scraper *)

(** One entry of [cw_log["events"]]. *)
Record LogEvent : Type := { timestamp : Z; message : string }.

Definition marker : string := "validation mAP <score>=".

(** [msg[msg.find("(") + 1 : msg.find(")")]] *)
Definition extract (msg : string) : string :=
  let num_start := PyStr.find msg "(" in
  let num_end := PyStr.find msg ")" in
  PyStr.slice msg (num_start + 1) num_end.

(** The [for e in cw_log["events"]] loop, with [mAP_accs] as accumulator. *)
Fixpoint scan (events : list LogEvent) (mAP_accs : list float)
  : exn + list float :=
  match events with
  | [] => inr mAP_accs
  | e :: events' =>
      let msg := message e in
      if PyStr.contains marker msg then
        let mAP := extract msg in
        match PyNum.float_of_string mAP with
        | Some v => scan events' (mAP_accs ++ [v])
        | None => inl (ValueError_float mAP)
        end
      else scan events' mAP_accs
  end.

Definition plot_object_detection_log (events : list LogEvent) (title : string)
  : M unit :=
  let* mAP_accs := lift (scan events []) in
  emit (PrintTitle title) ;;;
  let* best := lift (Py.max mAP_accs) in
  emit (PrintMaximum best) ;;;
  emit Subplots ;;;
  emit (Xlabel "Epochs") ;;;
  emit (Ylabel "Mean Avg Precision (mAP)") ;;;
  emit (Plot (Py.range (length mAP_accs)) mAP_accs "mAP") ;;;
  emit Legend ;;;
  emit SetTicks ;;;
  emit Show.

(** ** The detection renderer *)

Record image : Type := { height : Z; width : Z }.

Section Render.

(** The stream of numbers [random.random()] will return. *)
Variable random_stream : nat -> float.

Definition random : M float :=
  fun w => (inr (random_stream (rng_pos w)),
            World (trace w) (S (rng_pos w)) (dets_obj w)).

(** Entering a function whose parameter [dets] is bound to [v]. *)
Definition bind_dets (v : pyval) : M unit :=
  fun w => (inr tt, World (trace w) (rng_pos w) v).

Variable img : image.
Variable classes : list string.
Variable thresh : float.

(** [int(c * dim)] *)
Definition pixel (c : pyval) (dim : Z) : exn + Z :=
  match Py.mul_int c dim with
  | inl e => inl e
  | inr p => Py.int p
  end.

(** The [if classes and len(classes) > cls_id] fallback. *)
Definition label (cls_id : Z) : exn + string :=
  let class_name := PyStr.of_int cls_id in
  if negb (Nat.eqb (length classes) 0) && (cls_id <? Z.of_nat (length classes))
  then Py.getitem_list classes cls_id
  else inr class_name.

Definition locals : Type := gmap Z color * Z.

(** One pass of the loop body; the locals are [colors] and
    [num_detections]. *)
Definition body (det : pyval) (l : locals) : M locals :=
  let '(colors, num_detections) := l in
  let* '(klass, score, x0, y0, x1, y1) := lift (Py.unpack6 det) in
  let* below := lift (Py.lt_float score thresh) in
  if below : bool then ret (colors, num_detections)
  else
    let num_detections := num_detections + 1 in
    let* cls_id := lift (Py.int klass) in
    let* colors :=
      match colors !! cls_id with
      | Some _ => ret colors
      | None =>
          let* r := random in
          let* g := random in
          let* b := random in
          ret (<[cls_id := (r, g, b)]> colors)
      end in
    let* xmin := lift (pixel x0 (width img)) in
    let* ymin := lift (pixel y0 (height img)) in
    let* xmax := lift (pixel x1 (width img)) in
    let* ymax := lift (pixel y1 (height img)) in
    let* c := match colors !! cls_id with
              | Some c => ret c
              | None => raise (KeyError (PyStr.of_int cls_id))
              end in
    emit (AddPatch (xmin, ymin) (xmax - xmin) (ymax - ymin) c) ;;;
    let* class_name := lift (label cls_id) in
    emit (PrintDetection class_name score) ;;;
    lift (Py.format_f score) ;;;
    emit (AddText xmin (ymin - 2) class_name score c) ;;;
    ret (colors, num_detections).

(** [for det in dets]: the iterator reads item [i] of the live object at
    each step and stops when there is none.  The body never writes to
    [dets] ([body_frame] below), so the length at entry bounds the
    number of passes. *)
Definition item (obj : pyval) (i : nat) : option pyval :=
  match Py.iter obj with
  | inr items => items !! i
  | inl _ => None
  end.

Fixpoint for_dets (fuel i : nat) (l : locals) : M locals :=
  match fuel with
  | O => ret l
  | S fuel' =>
      let* w := get in
      match item (dets_obj w) i with
      | None => ret l
      | Some det =>
          let* l' := body det l in
          for_dets fuel' (S i) l'
      end
  end.

Definition visualize_detection (img_file : string) (dets : pyval) : M unit :=
  bind_dets dets ;;;
  emit (Imshow img_file) ;;;
  let colors : gmap Z color := ∅ in
  let num_detections := 0 in
  let* items := lift (Py.iter dets) in
  let* '(_, num_detections) :=
    for_dets (length items) 0 (colors, num_detections) in
  emit (PrintCount num_detections) ;;;
  emit Show.

(** [OBJECT_CATEGORIES] is the [classes] of the section; [detections] is
    what [json.loads] returned for the endpoint's response. *)
Definition show_hb_prediction (filename : string) (detections : pyval)
  : M unit :=
  let* dets := lift (Py.getitem_str detections "prediction") in
  visualize_detection filename dets.

End Render.

(** * Vocabulary of the properties *)

Definition chars (s : string) : list ascii := list_ascii_of_string s.

Definition has_marker (e : LogEvent) : bool := PyStr.contains marker (message e).

(** [v] is the sample the scraper reads off [e]. *)
Definition sample_of (e : LogEvent) (v : float) : Prop :=
  PyNum.float_of_string (extract (message e)) = Some v.

Definition well_formed (e : LogEvent) : Prop :=
  has_marker e = true -> is_Some (PyNum.float_of_string (extract (message e))).

(** What a run that reaches the end prints and plots. *)
Definition report (title : string) (best : float) (mAP_accs : list float)
  : list event :=
  [PrintTitle title; PrintMaximum best; Subplots; Xlabel "Epochs";
   Ylabel "Mean Avg Precision (mAP)";
   Plot (Py.range (length mAP_accs)) mAP_accs "mAP"; Legend; SetTicks; Show].

(** The (epoch, value) points of a plotted line. *)
Definition samples (e : event) : list (Z * float) :=
  match e with
  | Plot xs ys _ => zip xs ys
  | _ => []
  end.

Definition log (t : Z) (msg : string) : LogEvent :=
  {| timestamp := t; message := msg |}.

(** The ranges that section 3 of the specification declares for the fields
    named in claim C2, in its words: class_count a positive integer,
    learning_rate a positive float, lr_decay_factor a float in (0,1],
    momentum a float in [0,1]. *)
Module Declared.

Definition zero : float := S754_zero false.
Definition one : float := PyNum.of_Z 1.

Definition positive_integer (v : pyval) : bool :=
  match v with PInt z => 0 <? z | _ => false end.

Definition positive_float (v : pyval) : bool :=
  match v with PFloat f => SFltb zero f | _ => false end.

Definition in_0_1_left_open (v : pyval) : bool :=
  match v with PFloat f => SFltb zero f && SFleb f one | _ => false end.

Definition in_0_1 (v : pyval) : bool :=
  match v with PFloat f => SFleb zero f && SFleb f one | _ => false end.

Definition in_range (a : hyperparameter_args) : bool :=
  positive_integer (num_classes a) && positive_float (learning_rate a)
  && in_0_1_left_open (lr_scheduler_factor a) && in_0_1 (momentum a).

End Declared.

Definition kwargs_of (e : event) : list (string * pyval) :=
  match e with
  | SetHyperparameters kwargs => kwargs
  | _ => []
  end.

(** From [w] to [w'] the object bound to [dets] is the same, the trace has
    only been added to and the random generator has only advanced. *)
Definition grows (w w' : world) : Prop :=
  dets_obj w' = dets_obj w /\
  (exists new, trace w' = trace w ++ new) /\
  (rng_pos w <= rng_pos w')%nat.

(** [m] never writes to the object bound to [dets]. *)
Definition keeps_dets {A} (m : M A) : Prop :=
  forall w, grows w (snd (m w)).

(** A row [[id, score, x1, y1, x2, y2]] of floats, as the docstring of
    [visualize_detection] describes [dets] and as the endpoint sends it. *)
Record detection : Type := Detection {
  klass : float; score : float;
  x0 : float; y0 : float; x1 : float; y1 : float
}.

Definition row (d : detection) : pyval :=
  PList [PFloat (klass d); PFloat (score d);
         PFloat (x0 d); PFloat (y0 d); PFloat (x1 d); PFloat (y1 d)].

(** What is drawn for one detection, apart from its colour. *)
Record drawing : Type := Drawing {
  cls_id : Z;
  xmin : Z; ymin : Z; xmax : Z; ymax : Z;
  class_name : string
}.

Definition ok {A} (r : exn + A) : option A :=
  match r with inr a => Some a | inl _ => None end.

Definition geometry (p : drawing) : Z * Z * Z * Z :=
  ((xmin p, ymin p), xmax p - xmin p, ymax p - ymin p).

Definition strokes (p : drawing) (s : float) (c : color) : list event :=
  [AddPatch (xmin p, ymin p) (xmax p - xmin p) (ymax p - ymin p) c;
   PrintDetection (class_name p) (PFloat s);
   AddText (xmin p) (ymin p - 2) (class_name p) (PFloat s) c].

Definition rectangles (tr : list event) : list (Z * Z * Z * Z) :=
  omap (fun e => match e with
                 | AddPatch xy w h _ => Some (xy, w, h)
                 | _ => None
                 end) tr.

Definition edgecolors (tr : list event) : list color :=
  omap (fun e => match e with AddPatch _ _ _ c => Some c | _ => None end) tr.

Definition facecolors (tr : list event) : list color :=
  omap (fun e => match e with AddText _ _ _ _ c => Some c | _ => None end) tr.

Definition counts (tr : list event) : list Z :=
  omap (fun e => match e with PrintCount n => Some n | _ => None end) tr.

Section Vocabulary.

Variable random_stream : nat -> float.
Variable img : image.
Variable classes : list string.
Variable thresh : float.

(** The loop over a list of items that is known not to change. *)
Fixpoint run (items : list pyval) (l : locals) : M locals :=
  match items with
  | [] => ret l
  | det :: items' => let* l' := body random_stream img classes thresh det l in
      run items' l'
  end.

(** The integer conversions and the label of a detection, when none of
    them raises. *)
Definition plan (d : detection) : option drawing :=
  c ← ok (Py.int (PFloat (klass d)));
  a ← ok (pixel (PFloat (x0 d)) (width img));
  b ← ok (pixel (PFloat (y0 d)) (height img));
  a' ← ok (pixel (PFloat (x1 d)) (width img));
  b' ← ok (pixel (PFloat (y1 d)) (height img));
  n ← ok (label classes c);
  Some (Drawing c a b a' b' n).

(** The detections the loop does not [continue] past. *)
Definition kept (ds : list detection) : list detection :=
  filter (fun d => negb (PyNum.flt (score d) thresh)) ds.

(** The colour memo: reuse the colour of a class seen before, otherwise
    take the next three random numbers. *)
Definition pick (colors : gmap Z color) (pos : nat) (c : Z)
  : gmap Z color * nat * color :=
  match colors !! c with
  | Some col => (colors, pos, col)
  | None =>
      let col := (random_stream pos, random_stream (S pos),
                  random_stream (S (S pos))) in
      (<[c := col]> colors, S (S (S pos)), col)
  end.

Fixpoint paint (qs : list (drawing * float)) (colors : gmap Z color) (pos : nat)
  : list event * gmap Z color * nat :=
  match qs with
  | [] => ([], colors, pos)
  | (p, s) :: qs' =>
      let '(colors1, pos1, col) := pick colors pos (cls_id p) in
      let '(evs, colors', pos') := paint qs' colors1 pos1 in
      (strokes p s col ++ evs, colors', pos')
  end.

End Vocabulary.

(** The response shape of section 6 of the specification, in its words: a
    top-level object with key "prediction" mapping to a sequence of
    6-element numeric tuples. *)
Module Response.

Definition numeric (v : pyval) : bool :=
  match v with PInt _ | PFloat _ => true | _ => false end.

Definition tuple6 (v : pyval) : bool :=
  match v with
  | PList l => Nat.eqb (length l) 6 && forallb numeric l
  | _ => false
  end.

Definition well_shaped (v : pyval) : bool :=
  match v with
  | PDict d =>
      match Py.assoc "prediction" d with
      | Some (PList rows) => forallb tuple6 rows
      | _ => false
      end
  | _ => false
  end.

End Response.

(** Discharges [Forall2 (fun d p => plan d = Some p) ds ps] on concrete
    lists: evaluate the list of detections, then each plan. *)
Ltac planned :=
  lazymatch goal with
  | |- Forall2 _ ?l _ =>
      let l' := eval vm_compute in l in
      replace l with l' by (vm_compute; reflexivity)
  end;
  repeat (constructor; [vm_compute; reflexivity |]); constructor.

(** ** Cell "test_model" *)

(** [test_model()] calls [show_hb_prediction("hummingbird-1.jpg", ep)]: the
    threshold is the default [0.40] of [show_hb_prediction]. *)
Definition test_model (random_stream : nat -> float) (img : image)
           (OBJECT_CATEGORIES : list string) (detections : pyval) : M unit :=
  show_hb_prediction random_stream img OBJECT_CATEGORIES
                     (PyNum.of_decimal false 40 (-2)) "hummingbird-1.jpg"
                     detections.

(** The loop of the scraper on the messages that carry the marker. *)
Fixpoint scan_messages (msgs : list string) (mAP_accs : list float)
  : exn + list float :=
  match msgs with
  | [] => inr mAP_accs
  | msg :: msgs' =>
      match PyNum.float_of_string (extract msg) with
      | Some v => scan_messages msgs' (mAP_accs ++ [v])
      | None => inl (ValueError_float (extract msg))
      end
  end.

(** The messages of a stream that carry the marker, in order. *)
Definition marked (events : list LogEvent) : list string :=
  message <$> filter has_marker events.

(** A row of six values whose score is a number below the threshold. *)
Definition below_threshold (thresh : float) (det : pyval) : Prop :=
  exists k s a b c d,
    det = PList [k; s; a; b; c; d] /\ Py.lt_float s thresh = inr true.

(** The mechanism of the scraper, said without its code: a message carries
    the marker when the marker occurs in it, and the text read off a
    message is what stands between its first "(" and its first ")". *)
Definition carries_marker (msg : string) : Prop :=
  exists a r, msg = (a ++ "validation mAP <score>=" ++ r)%string.

Definition between_first_parentheses (msg payload : string) : Prop :=
  exists a c,
    msg = (a ++ "(" ++ payload ++ ")" ++ c)%string /\
    ~ In "("%char (chars a) /\ ~ In ")"%char (chars a) /\
    ~ In ")"%char (chars payload).

(** [scraped events vs]: going through [events] in order, a message
    without the marker gives nothing and a message with it gives the float
    written between its first parentheses. *)
Inductive scraped : list LogEvent -> list float -> Prop :=
| scraped_nil : scraped [] []
| scraped_skip e events vs :
    ~ carries_marker (message e) ->
    scraped events vs -> scraped (e :: events) vs
| scraped_sample e events payload v vs :
    carries_marker (message e) ->
    between_first_parentheses (message e) payload ->
    PyNum.float_of_string payload = Some v ->
    scraped events vs -> scraped (e :: events) (v :: vs).

(** The series drawn by [ax.plot] and the maxima printed, in a trace. *)
Definition plotted (tr : list event) : list (list (Z * float)) :=
  omap (fun e => match e with
                 | Plot _ _ _ => Some (samples e)
                 | _ => None
                 end) tr.

Definition maxima (tr : list event) : list float :=
  omap (fun e => match e with PrintMaximum v => Some v | _ => None end) tr.

(** The mechanism as claim C1 and section 4.3 of the specification word
    it: the marker ends with the "(" and the sample is the text from there
    up to the next ")". *)
Module Claimed.

Definition marker : string := "validation mAP <score>=(".

Definition payload (msg : string) : option string :=
  let i := PyStr.find msg marker in
  if i <? 0 then None
  else
    let rest := PyStr.slice msg (i + PyStr.len marker) (PyStr.len msg) in
    let j := PyStr.find rest ")" in
    if j <? 0 then None else Some (PyStr.slice rest 0 j).

End Claimed.

(** What a row or a score is, as Python sees it: [iter(v)] is defined on
    lists, strings and dicts, [len(v)] counts what it yields, and [<]
    against a float is defined on bools, ints and floats. *)
Definition iterable (v : pyval) : bool :=
  match v with
  | PList _ | PStr _ | PDict _ => true
  | PNone | PBool _ | PInt _ | PFloat _ => false
  end.

Definition py_len (v : pyval) : nat :=
  match v with
  | PList l => length l
  | PStr s => String.length s
  | PDict d => length d
  | PNone | PBool _ | PInt _ | PFloat _ => 0%nat
  end.

Definition number (v : pyval) : bool :=
  match v with
  | PBool _ | PInt _ | PFloat _ => true
  | PNone | PStr _ | PList _ | PDict _ => false
  end.

(** * Properties *)

(** ** Strings *)

Section StringFacts.

Lemma append_nil (s : string) : ("" ++ s)%string = s.
Proof. reflexivity. Qed.

Lemma append_cons (c : ascii) (a s : string) :
  (String c a ++ s)%string = String c (a ++ s).
Proof. reflexivity. Qed.

Lemma length_append (a b : string) :
  String.length (a ++ b)%string = (String.length a + String.length b)%nat.
Proof.
  induction a as [|c a IH]; rewrite ?append_nil, ?append_cons; simpl;
    [reflexivity | now rewrite IH].
Qed.

Lemma prefix_char (c : ascii) (s : string) :
  String.prefix (String c "") s = true <-> exists r, s = String c r.
Proof.
  destruct s as [|x r]; simpl.
  - split; [discriminate | intros [r Hr]; discriminate].
  - destruct (ascii_dec c x) as [->|Hne].
    + split; [eauto | intros _; now destruct r].
    + split; [discriminate | intros [r' Hr']; congruence].
Qed.

Lemma find_from_char (c : ascii) (a r : string) (i : Z) :
  ~ In c (chars a) ->
  PyStr.find_from (String c "") (a ++ String c r)%string i
  = i + PyStr.len a.
Proof.
  unfold PyStr.len. revert i.
  induction a as [|x a IH]; intros i Hnot;
    rewrite ?append_nil, ?append_cons; cbn [PyStr.find_from String.length].
  - rewrite (proj2 (prefix_char c (String c r))) by eauto. lia.
  - destruct (String.prefix (String c "") (String x (a ++ String c r))) eqn:E.
    + apply prefix_char in E as [r' Hr']. injection Hr' as -> _.
      exfalso. apply Hnot. now left.
    + rewrite IH; [lia |].
      intros Hin. apply Hnot. now right.
Qed.

Lemma find_from_absent (c : ascii) (a : string) (i : Z) :
  ~ In c (chars a) -> PyStr.find_from (String c "") a i = -1.
Proof.
  revert i. induction a as [|x a IH]; intros i Hnot; [reflexivity |].
  cbn [PyStr.find_from].
  destruct (String.prefix (String c "") (String x a)) eqn:E.
  - apply prefix_char in E as [r' Hr']. injection Hr' as -> _.
    exfalso. apply Hnot. now left.
  - apply IH. intros Hin. apply Hnot. now right.
Qed.

Lemma substring_middle (a b c : string) :
  String.substring (String.length a) (String.length b) (a ++ b ++ c)%string = b.
Proof.
  induction a as [|x a IH]; rewrite ?append_nil, ?append_cons; simpl;
    [| exact IH].
  revert c. induction b as [|y b IHb]; intros c;
    rewrite ?append_nil, ?append_cons; simpl.
  - now destruct c.
  - now rewrite IHb.
Qed.

Lemma chars_append (a b : string) : chars (a ++ b)%string = chars a ++ chars b.
Proof.
  induction a as [|x a IH]; rewrite ?append_nil, ?append_cons; simpl;
    [reflexivity | now rewrite IH].
Qed.

End StringFacts.

(** ** The log scraper *)

Lemma scan_ok (events : list LogEvent) (acc vs : list float) :
  scan events acc = inr vs <->
  exists new, vs = acc ++ new /\ Forall2 sample_of (filter has_marker events) new.
Proof.
  revert acc. induction events as [|e events IH]; intros acc; cbn [scan].
  - split.
    + intros [= <-]. exists []. rewrite app_nil_r. split; [done | constructor].
    + intros (new & -> & HF). inversion HF. now rewrite app_nil_r.
  - rewrite filter_cons. fold (has_marker e).
    destruct (has_marker e) eqn:Hm.
    + rewrite decide_True by done.
      destruct (PyNum.float_of_string (extract (message e))) as [v|] eqn:Hf.
      * rewrite IH. split.
        -- intros (new & -> & HF). exists (v :: new).
           rewrite <- app_assoc. split; [done | now constructor].
        -- intros (new & -> & HF). inversion HF as [|? v' ? new' Hs HF']; subst.
           unfold sample_of in Hs. rewrite Hf in Hs. injection Hs as <-.
           exists new'. now rewrite <- app_assoc.
      * split; [discriminate |].
        intros (new & _ & HF). inversion HF as [|? v' ? new' Hs HF']; subst.
        unfold sample_of in Hs. congruence.
    + rewrite decide_False by (intros []). apply IH.
Qed.

Lemma scan_length (events : list LogEvent) (vs : list float) :
  scan events [] = inr vs -> (length vs <= length events)%nat.
Proof.
  intros (new & -> & HF)%scan_ok. simpl.
  rewrite <- (Forall2_length _ _ _ HF). apply length_filter.
Qed.

Lemma scan_abort (pre post : list LogEvent) (e : LogEvent) (acc : list float) :
  Forall well_formed pre -> has_marker e = true ->
  PyNum.float_of_string (extract (message e)) = None ->
  scan (pre ++ e :: post) acc = inl (ValueError_float (extract (message e))).
Proof.
  intros Hpre Hm Hf. revert acc.
  induction Hpre as [|x pre Hx Hpre IH]; intros acc; cbn [scan app].
  - fold (has_marker e). now rewrite Hm, Hf.
  - fold (has_marker x). destruct (has_marker x) eqn:Hmx; [| apply IH].
    destruct (Hx Hmx) as [v Hv]. rewrite Hv. apply IH.
Qed.


Lemma plot_ok (events : list LogEvent) (title : string) (w : world)
      (vs : list float) (best : float) :
  scan events [] = inr vs -> Py.max vs = inr best ->
  plot_object_detection_log events title w
  = (inr tt, World (trace w ++ report title best vs) (rng_pos w) (dets_obj w)).
Proof.
  intros Hs Hm. unfold plot_object_detection_log, bind, lift, emit.
  rewrite Hs. cbn. rewrite Hm. cbn. unfold report.
  now rewrite <- !app_assoc.
Qed.

Lemma range_lookup (n i : nat) :
  (i < n)%nat -> Py.range n !! i = Some (Z.of_nat i).
Proof.
  intros Hi. unfold Py.range. rewrite list_lookup_fmap.
  now rewrite lookup_seq_lt.
Qed.

Lemma scan_total (events : list LogEvent) (acc : list float) :
  Forall well_formed events -> exists vs, scan events acc = inr vs.
Proof.
  intros H. revert acc. induction H as [|e events He _ IH]; intros acc;
    cbn [scan]; [eauto |].
  fold (has_marker e). destruct (has_marker e) eqn:Hm; [| apply IH].
  destruct (He Hm) as [v ->]. apply IH.
Qed.

Lemma max_nonempty (vs : list float) :
  vs <> [] -> exists best, Py.max vs = inr best /\ In best vs.
Proof.
  destruct vs as [|x r]; [congruence | intros _].
  eexists. split; [reflexivity |].
  revert x. induction r as [|y r IH]; intros x; cbn [fold_left]; [now left |].
  destruct (IH (if PyNum.fgt y x then y else x)) as [H|H].
  - rewrite <- H. destruct (PyNum.fgt y x); [right; now left | now left].
  - right. now right.
Qed.

(** C3, as the notebook has it.  Parsing is line-local: a message yields at
    most one sample and a message without the marker yields none.  A
    message that carries the marker but whose extracted text is not a
    float literal is not skipped: [float] raises [ValueError] there, and
    the call ends with that exception before anything is printed or
    plotted.  Only a stream without such a message is parsed to its end. *)
Theorem malformed_payload_aborts :
  forall events,
    (Forall well_formed events -> exists vs, scan events [] = inr vs) /\
    (forall vs, scan events [] = inr vs ->
                Forall2 sample_of (filter has_marker events) vs /\
                (length vs <= length events)%nat) /\
    (forall pre e post title w,
        events = pre ++ e :: post ->
        Forall well_formed pre ->
        has_marker e = true ->
        PyNum.float_of_string (extract (message e)) = None ->
        plot_object_detection_log events title w
        = (inl (ValueError_float (extract (message e))), w)).
Proof.
  intros events. split; [apply scan_total | split].
  - intros vs Hs. split; [| now apply scan_length].
    apply scan_ok in Hs as (new & -> & HF). exact HF.
  - intros pre e post title w -> Hpre Hm Hf.
    unfold plot_object_detection_log, bind, lift.
    now rewrite (scan_abort pre post e [] Hpre Hm Hf).
Qed.

Lemma malformed_payload_aborts_witness :
  let bad := log 1 "validation mAP <score>=(abc)" in
  let good := log 2 "validation mAP <score>=(0.55)" in
  plot_object_detection_log ([good] ++ bad :: [good]) "job" (World [] 0 PNone)
  = (inl (ValueError_float "abc"), World [] 0 PNone).
Proof.
  intros bad good.
  refine (proj2 (proj2 (malformed_payload_aborts ([good] ++ bad :: [good])))
                [good] bad [good] "job" (World [] 0 PNone) eq_refl _ _ _).
  - constructor; [| constructor]. intros _. vm_compute. eauto.
  - vm_compute. reflexivity.
  - vm_compute. reflexivity.
Defined.

(** C3 as the specification words it fails: the first message carries the
    marker with the payload "abc"; the parse does not continue to the
    second, well-formed message but ends in [ValueError]. *)
Lemma malformed_payload_not_skipped :
  let events := [log 1 "validation mAP <score>=(abc)";
                 log 2 "validation mAP <score>=(0.55)"] in
  scan events [] = inl (ValueError_float "abc") /\
  (forall vs, scan events [] <> inr vs) /\
  plot_object_detection_log events "job" (World [] 0 PNone)
  = (inl (ValueError_float "abc"), World [] 0 PNone).
Proof.
  intros events.
  assert (H : scan events [] = inl (ValueError_float "abc"))
    by (vm_compute; reflexivity).
  split; [exact H | split].
  - intros vs Hvs. rewrite H in Hvs. discriminate.
  - vm_compute. reflexivity.
Qed.



Section Extraction.

Local Open Scope string_scope.

Lemma append_assoc (a b c : string) : (a ++ b) ++ c = a ++ b ++ c.
Proof.
  induction a as [|x a IH]; rewrite ?append_nil, ?append_cons;
    [reflexivity | now rewrite IH].
Qed.

Lemma len_append (a b : string) : PyStr.len (a ++ b) = (PyStr.len a + PyStr.len b)%Z.
Proof. unfold PyStr.len. rewrite length_append. lia. Qed.

Lemma len_nonneg (a : string) : (0 <= PyStr.len a)%Z.
Proof. unfold PyStr.len. lia. Qed.

Lemma find_char (c : ascii) (a r : string) :
  ~ In c (chars a) -> PyStr.find (a ++ String c r) (String c "") = PyStr.len a.
Proof. intros H. unfold PyStr.find. now rewrite find_from_char. Qed.

(** The text between the first "(" and the first ")" of the message,
    wherever they stand. *)
Lemma extract_between (a b c : string) :
  ~ In "("%char (chars a) -> ~ In ")"%char (chars a) ->
  ~ In ")"%char (chars b) ->
  extract (a ++ "(" ++ b ++ ")" ++ c) = b.
Proof.
  intros Ha1 Ha2 Hb. unfold extract.
  change (a ++ "(" ++ b ++ ")" ++ c) with (a ++ String "(" (b ++ String ")" c)).
  rewrite (find_char "(" a _ Ha1).
  replace (a ++ String "(" (b ++ String ")" c))
    with ((a ++ String "(" b) ++ String ")" c)
    by (rewrite append_assoc; reflexivity).
  rewrite (find_char ")" (a ++ String "(" b) c).
  2:{ rewrite chars_append. intros [H|H]%in_app_or; [auto |].
      destruct H as [H|H]; [discriminate | auto]. }
  unfold PyStr.slice, PyStr.adjust.
  rewrite !len_append.
  change (PyStr.len (String "(" b)) with (PyStr.len ("(" ++ b)).
  change (PyStr.len (String ")" c)) with (PyStr.len (")" ++ c)).
  rewrite !len_append. change (PyStr.len "(") with 1%Z.
  change (PyStr.len ")") with 1%Z.
  pose proof (len_nonneg a). pose proof (len_nonneg b).
  pose proof (len_nonneg c).
  rewrite (proj2 (Z.ltb_ge (PyStr.len a + 1) 0)) by lia.
  rewrite (proj2 (Z.ltb_ge (PyStr.len a + (1 + PyStr.len b)) 0)) by lia.
  rewrite !Z.min_l by lia.
  destruct (Z.ltb_spec (PyStr.len a + 1) (PyStr.len a + (1 + PyStr.len b)))
    as [Hlt|Hge].
  - replace (Z.to_nat (PyStr.len a + 1)) with (String.length (a ++ "(")).
    2:{ rewrite length_append. unfold PyStr.len. simpl. lia. }
    replace (Z.to_nat _) with (String.length b) by (unfold PyStr.len; lia).
    replace ((a ++ String "(" b) ++ String ")" c)
      with ((a ++ "(") ++ b ++ String ")" c)
      by (rewrite !append_assoc; reflexivity).
    apply substring_middle.
  - destruct b; [reflexivity |].
    unfold PyStr.len in Hge. simpl in Hge. lia.
Qed.

(** A ")" that comes before the first "(" leaves nothing to extract. *)
Lemma extract_closing_first (a b c : string) :
  ~ In "("%char (chars a) -> ~ In ")"%char (chars a) ->
  ~ In "("%char (chars b) ->
  extract (a ++ ")" ++ b ++ "(" ++ c) = "".
Proof.
  intros Ha1 Ha2 Hb. unfold extract.
  change (a ++ ")" ++ b ++ "(" ++ c) with (a ++ String ")" (b ++ String "(" c)).
  rewrite (find_char ")" a _ Ha2).
  replace (a ++ String ")" (b ++ String "(" c))
    with ((a ++ String ")" b) ++ String "(" c)
    by (rewrite append_assoc; reflexivity).
  rewrite (find_char "(" (a ++ String ")" b) c).
  2:{ rewrite chars_append. intros [H|H]%in_app_or; [auto |].
      destruct H as [H|H]; [discriminate | auto]. }
  unfold PyStr.slice, PyStr.adjust.
  rewrite !len_append.
  change (PyStr.len (String ")" b)) with (PyStr.len (")" ++ b)).
  change (PyStr.len (String "(" c)) with (PyStr.len ("(" ++ c)).
  rewrite !len_append. change (PyStr.len "(") with 1%Z.
  change (PyStr.len ")") with 1%Z.
  pose proof (len_nonneg a). pose proof (len_nonneg b).
  pose proof (len_nonneg c).
  rewrite (proj2 (Z.ltb_ge (PyStr.len a + (1 + PyStr.len b) + 1) 0)) by lia.
  rewrite (proj2 (Z.ltb_ge (PyStr.len a) 0)) by lia.
  rewrite !Z.min_l by lia.
  now rewrite (proj2 (Z.ltb_ge _ _)) by lia.
Qed.

(** Without any parenthesis both [find] return -1 and the slice is the
    message without its last character. *)
Lemma extract_no_parentheses (msg : string) :
  ~ In "("%char (chars msg) -> ~ In ")"%char (chars msg) ->
  extract msg = PyStr.slice msg 0 (-1).
Proof.
  intros H1 H2. unfold extract, PyStr.find.
  now rewrite !find_from_absent by assumption.
Qed.

End Extraction.

(** C10. For a message that carries the marker, the extracted text is what
    stands between the first "(" and the first ")" of the whole message,
    whether or not that is the payload after the marker: with a
    parenthesis pair before the marker the sample comes from that pair,
    and with a ")" before the first "(" the extracted text is empty. *)
Theorem extract_first_parentheses :
  (forall a b c : string,
      ~ In "("%char (chars a) -> ~ In ")"%char (chars a) ->
      ~ In ")"%char (chars b) ->
      extract (a ++ "(" ++ b ++ ")" ++ c)%string = b) /\
  (forall a b c : string,
      ~ In "("%char (chars a) -> ~ In ")"%char (chars a) ->
      ~ In "("%char (chars b) ->
      extract (a ++ ")" ++ b ++ "(" ++ c)%string = "") /\
  (forall t,
      let e := log t "epoch (3) validation mAP <score>=(0.55)" in
      has_marker e = true /\ extract (message e) = "3" /\
      scan [e] [] = inr [Prim2SF 3%float]) /\
  (forall t,
      let e := log t "done) validation mAP <score>=(0.55)" in
      has_marker e = true /\ extract (message e) = "" /\
      scan [e] [] = inl (ValueError_float "")).
Proof.
  split; [exact extract_between | split; [exact extract_closing_first |]].
  split; intros t e; repeat split; vm_compute; reflexivity.
Qed.

Lemma extract_first_parentheses_witness :
  extract ("epoch " ++ "(" ++ "3" ++ ")" ++ " validation mAP <score>=(0.55)")%string
  = "3".
Proof.
  apply (proj1 extract_first_parentheses "epoch " "3"
               " validation mAP <score>=(0.55)");
    vm_compute; intuition discriminate.
Defined.

(** The membership test of the loop is on the marker without the "(" that
    follows it in the training log: a message that carries the marker but
    no parenthesis is not skipped, its text without the last character
    goes to [float]. *)
Lemma marker_without_parenthesis :
  forall t,
    let e := log t "validation mAP <score>=0.55" in
    has_marker e = true /\
    extract (message e) = "validation mAP <score>=0.5" /\
    scan [e] [] = inl (ValueError_float "validation mAP <score>=0.5").
Proof. intros t e. repeat split; vm_compute; reflexivity. Qed.

(** ** Hyperparameters *)

(** C2, as the notebook has it.  [set_hyperparameters] checks nothing: for
    all field values, inside or outside the declared ranges, it returns
    normally after one call that hands the estimator sixteen
    hyperparameters, each equal to the corresponding input. *)
Theorem hyperparameters_passed_unchecked :
  forall a w,
  exists shown kwargs,
    set_hyperparameters a w
    = (inr tt, World (trace w ++ [PrintHyperparameters shown;
                                  SetHyperparameters kwargs])
                     (rng_pos w) (dets_obj w)) /\
    length kwargs = 16%nat /\
    Py.assoc "base_network" kwargs = Some (base_network a) /\
    Py.assoc "use_pretrained_model" kwargs = Some (use_pretrained_model a) /\
    Py.assoc "num_classes" kwargs = Some (num_classes a) /\
    Py.assoc "mini_batch_size" kwargs = Some (mini_batch_size a) /\
    Py.assoc "epochs" kwargs = Some (num_epochs a) /\
    Py.assoc "learning_rate" kwargs = Some (learning_rate a) /\
    Py.assoc "lr_scheduler_step" kwargs = Some (lr_steps a) /\
    Py.assoc "lr_scheduler_factor" kwargs = Some (lr_scheduler_factor a) /\
    Py.assoc "optimizer" kwargs = Some (optimizer a) /\
    Py.assoc "momentum" kwargs = Some (momentum a) /\
    Py.assoc "weight_decay" kwargs = Some (weight_decay a) /\
    Py.assoc "overlap_threshold" kwargs = Some (overlap_threshold a) /\
    Py.assoc "nms_threshold" kwargs = Some (nms_threshold a) /\
    Py.assoc "image_shape" kwargs = Some (image_shape a) /\
    Py.assoc "label_width" kwargs = Some (label_width a) /\
    Py.assoc "num_training_samples" kwargs = Some (num_training_samples a).
Proof.
  intros a w. eexists _, _. split.
  - unfold set_hyperparameters, bind, emit. cbn.
    rewrite <- app_assoc. reflexivity.
  - repeat split; reflexivity.
Qed.

(** C2 as the specification words it fails: with [num_classes = 0], which
    is not a positive integer, the call of the notebook's cell
    ([set_hyperparameters(0, 360, 16, 100, 0.001, "33,67", 0.1)] here)
    raises nothing and hands [num_classes = 0] to the estimator. *)
Lemma out_of_range_field_accepted :
  let a := positional (PInt 0) (PInt 360) (PInt 16) (PInt 100)
                      (PFloat (PyNum.of_decimal false 1 (-3)))
                      (PStr "33,67")
                      (PFloat (PyNum.of_decimal false 1 (-1))) in
  let w := World [] 0 PNone in
  Declared.positive_integer (num_classes a) = false /\
  Declared.in_range a = false /\
  fst (set_hyperparameters a w) = inr tt /\
  exists e, last (trace (snd (set_hyperparameters a w))) = Some e /\
            Py.assoc "num_classes" (kwargs_of e) = Some (PInt 0).
Proof.
  intros a w. repeat split; try (vm_compute; reflexivity).
  eexists. split; vm_compute; reflexivity.
Qed.

(** ** The renderer: what a call leaves untouched *)

Lemma grows_refl (w : world) : grows w w.
Proof. repeat split; [exists []; now rewrite app_nil_r | lia]. Qed.

Lemma grows_trans (w1 w2 w3 : world) : grows w1 w2 -> grows w2 w3 -> grows w1 w3.
Proof.
  intros (Hd & [n1 Ht] & Hr) (Hd' & [n2 Ht'] & Hr'). repeat split.
  - congruence.
  - exists (n1 ++ n2). rewrite Ht', Ht. now rewrite app_assoc.
  - lia.
Qed.

Create HintDb frame.

Lemma keeps_ret {A} (a : A) : keeps_dets (ret a).
Proof. intros w. apply grows_refl. Qed.

Lemma keeps_raise {A} (e : exn) : keeps_dets (@raise A e).
Proof. intros w. apply grows_refl. Qed.

Lemma keeps_lift {A} (r : exn + A) : keeps_dets (lift r).
Proof. intros w. apply grows_refl. Qed.

Lemma keeps_emit (e : event) : keeps_dets (emit e).
Proof. intros w. repeat split; cbn; [now exists [e] | lia]. Qed.

Lemma keeps_get : keeps_dets get.
Proof. intros w. apply grows_refl. Qed.

Lemma keeps_random (rs : nat -> float) : keeps_dets (random rs).
Proof. intros w. repeat split; cbn; [exists []; now rewrite app_nil_r | lia]. Qed.

Lemma keeps_bind {A B} (m : M A) (k : A -> M B) :
  keeps_dets m -> (forall a, keeps_dets (k a)) -> keeps_dets (bind m k).
Proof.
  intros Hm Hk w. unfold bind. specialize (Hm w).
  destruct (m w) as [[e|a] w']; simpl in *; [exact Hm |].
  eapply grows_trans; [exact Hm | apply Hk].
Qed.

#[local] Hint Resolve keeps_ret keeps_raise keeps_lift keeps_emit keeps_get
  keeps_random : frame.

Ltac frame :=
  repeat first
    [ progress auto with frame
    | apply keeps_bind; [| intros ?]
    | match goal with
      | |- keeps_dets (match ?x with _ => _ end) => destruct x
      | |- keeps_dets (if ?b then _ else _) => destruct b
      end ].

Section RenderFacts.

Variable random_stream : nat -> float.
Variable img : image.
Variable classes : list string.
Variable thresh : float.

Local Abbreviation loop_body := (body random_stream img classes thresh).
Local Abbreviation loop := (for_dets random_stream img classes thresh).
Local Abbreviation render :=
  (visualize_detection random_stream img classes thresh).
Local Abbreviation run_items := (run random_stream img classes thresh).

Lemma body_frame (det : pyval) (l : locals) : keeps_dets (loop_body det l).
Proof. unfold body. frame. Qed.


Lemma for_dets_run (items : list pyval) (fuel i : nat) (l : locals) (w : world) :
  Py.iter (dets_obj w) = inr items ->
  (i + fuel = length items)%nat ->
  loop fuel i l w = run_items (drop i items) l w.
Proof.
  revert i l w. induction fuel as [|fuel IH]; intros i l w Hit Hlen.
  - rewrite drop_ge by lia. reflexivity.
  - cbn [for_dets]. unfold bind at 1, get.
    unfold item. rewrite Hit.
    destruct (items !! i) as [det|] eqn:Hi.
    2:{ apply lookup_ge_None in Hi. lia. }
    rewrite (drop_S _ _ _ Hi). cbn [run]. unfold bind.
    pose proof (body_frame det l w) as Hfr.
    destruct (loop_body det l w) as [[e|l'] w']; [reflexivity |].
    simpl in Hfr. destruct Hfr as [Hfr _]. apply IH; [now rewrite Hfr | lia].
Qed.

Lemma visualize_detection_run (img_file : string) (items : list pyval) (w : world) :
  render img_file (PList items) w
  = match run_items items (∅, 0)
                (World (trace w ++ [Imshow img_file]) (rng_pos w) (PList items)) with
    | (inr (_, n), w') =>
        (inr tt, World (trace w' ++ [PrintCount n; Show]) (rng_pos w') (dets_obj w'))
    | (inl e, w') => (inl e, w')
    end.
Proof.
  unfold visualize_detection, bind, bind_dets, emit, lift. cbn.
  rewrite (for_dets_run items) by (cbn; auto).
  rewrite drop_0.
  destruct (run_items items _) as [[e|[c n]] w']; [reflexivity |].
  cbn. now rewrite <- app_assoc.
Qed.


End RenderFacts.


(** ** Comparison of floats *)

Lemma SFcompare_antisym (x y : float) :
  SFcompare y x = CompOpp <$> SFcompare x y.
Proof.
  destruct x as [sx|sx| |sx mx ex], y as [sy|sy| |sy my ey]; cbn;
    try reflexivity; try (now destruct sx, sy); try (now destruct sx);
    try (now destruct sy).
  pose proof (Pos.compare_cont_antisym mx my Eq) as Hm. cbn in Hm.
  destruct sx, sy; cbn; try reflexivity;
    rewrite (Z.compare_antisym ex ey); destruct (ex ?= ey); cbn;
    try reflexivity; rewrite <- Hm; [| reflexivity].
  now rewrite CompOpp_involutive.
Qed.

Lemma SFcompare_number (x y : float) :
  PyNum.is_nan x = false -> PyNum.is_nan y = false -> is_Some (SFcompare x y).
Proof.
  destruct x as [sx|sx| |sx mx ex], y as [sy|sy| |sy my ey]; cbn;
    intros; try discriminate; eauto.
Qed.

(** A NaN is below nothing and nothing is below it. *)
Lemma nan_never_below (s t : float) :
  PyNum.is_nan s = true \/ PyNum.is_nan t = true -> PyNum.flt s t = false.
Proof.
  intros [H|H]; [destruct s | destruct t]; try discriminate;
    [reflexivity | now destruct s].
Qed.

(** For numbers, "not below the threshold" is "at least the threshold". *)
Lemma not_lt_ge (s t : float) :
  PyNum.is_nan s = false -> PyNum.is_nan t = false ->
  negb (PyNum.flt s t) = PyNum.fge s t.
Proof.
  intros Hs Ht. unfold PyNum.flt, PyNum.fge, SFltb, SFleb.
  rewrite (SFcompare_antisym s t).
  destruct (SFcompare_number s t Hs Ht) as [c ->]. now destruct c.
Qed.

(** ** The renderer on detection records *)

Section Drawing.

Variable random_stream : nat -> float.
Variable img : image.
Variable classes : list string.
Variable thresh : float.

Local Abbreviation loop_body := (body random_stream img classes thresh).
Local Abbreviation render :=
  (visualize_detection random_stream img classes thresh).
Local Abbreviation run_items := (run random_stream img classes thresh).
Local Abbreviation plan_of := (plan img classes).
Local Abbreviation kept_of := (kept thresh).
Local Abbreviation choose := (pick random_stream).
Local Abbreviation painted := (paint random_stream).

Lemma body_below (d : detection) (l : locals) (w : world) :
  PyNum.flt (score d) thresh = true -> loop_body (row d) l w = (inr l, w).
Proof.
  intros Hlt. destruct l as [colors n].
  unfold body, bind, lift. cbn [row Py.unpack6 Py.iter Py.lt_float].
  now rewrite Hlt.
Qed.

Lemma body_draw (d : detection) (p : drawing) (colors : gmap Z color) (n : Z)
      (w : world) :
  PyNum.flt (score d) thresh = false -> plan_of d = Some p ->
  loop_body (row d) (colors, n) w
  = let '(colors', pos', col) := choose colors (rng_pos w) (cls_id p) in
    (inr (colors', n + 1),
     World (trace w ++ strokes p (score d) col) pos' (dets_obj w)).
Proof.
  intros Hlt Hp. unfold plan in Hp.
  destruct (Py.int (PFloat (klass d))) as [|c] eqn:Hc;
    cbn in Hp; [discriminate |].
  destruct (pixel (PFloat (x0 d)) (width img)) as [|a] eqn:Ha;
    cbn in Hp; [discriminate |].
  destruct (pixel (PFloat (y0 d)) (height img)) as [|b] eqn:Hb;
    cbn in Hp; [discriminate |].
  destruct (pixel (PFloat (x1 d)) (width img)) as [|a'] eqn:Ha';
    cbn in Hp; [discriminate |].
  destruct (pixel (PFloat (y1 d)) (height img)) as [|b'] eqn:Hb';
    cbn in Hp; [discriminate |].
  destruct (label classes c) as [|nm] eqn:Hn; cbn in Hp; [discriminate |].
  injection Hp as <-. cbn [cls_id xmin ymin xmax ymax class_name strokes].
  unfold body, bind, lift. cbn [row Py.unpack6 Py.iter Py.lt_float].
  rewrite Hlt, Hc. unfold pick.
  destruct (colors !! c) as [col|] eqn:Hcol.
  - unfold ret. rewrite Ha, Hb, Ha', Hb', Hcol. unfold emit. cbn.
    rewrite Hn. cbn. now rewrite <- !app_assoc.
  - unfold random, ret. cbn. rewrite Ha, Hb, Ha', Hb'.
    rewrite lookup_insert_eq. unfold emit. cbn.
    rewrite Hn. cbn. now rewrite <- !app_assoc.
Qed.

Lemma run_rows (ds : list detection) (ps : list drawing) :
  Forall2 (fun d p => plan_of d = Some p) (kept_of ds) ps ->
  forall colors n w,
    run_items (row <$> ds) (colors, n) w
    = let '(evs, colors', pos') :=
        painted (zip ps (score <$> kept_of ds)) colors (rng_pos w) in
      (inr (colors', n + Z.of_nat (length ps)),
       World (trace w ++ evs) pos' (dets_obj w)).
Proof.
  revert ps. induction ds as [|d ds IH]; intros ps HF colors n w.
  - inversion HF; subst. cbn. rewrite app_nil_r, Z.add_0_r. now destruct w.
  - cbn [fmap list_fmap run]. unfold bind. unfold kept in HF |- *.
    rewrite filter_cons in HF |- *.
    destruct (PyNum.flt (score d) thresh) eqn:Hlt; cbn [negb] in HF |- *.
    + rewrite decide_False in HF |- * by (intros []).
      rewrite body_below by exact Hlt. now apply IH.
    + rewrite decide_True in HF |- * by done.
      inversion HF as [|? p ? ps' Hp HF']; subst.
      rewrite (body_draw d p) by assumption.
      cbn [fmap list_fmap zip zip_with paint].
      destruct (choose colors (rng_pos w) (cls_id p)) as [[colors1 pos1] col].
      rewrite (IH ps' HF'). cbn [rng_pos trace dets_obj].
      destruct (painted _ colors1 pos1) as [[evs colors'] pos'].
      cbn [length]. rewrite <- app_assoc.
      replace (n + 1 + Z.of_nat (length ps')) with (n + Z.of_nat (S (length ps')))
        by lia.
      reflexivity.
Qed.

Lemma kept_ge (ds : list detection) :
  PyNum.is_nan thresh = false ->
  Forall (fun d => PyNum.is_nan (score d) = false) ds ->
  kept thresh ds = filter (fun d => PyNum.fge (score d) thresh) ds.
Proof.
  intros Ht. unfold kept. induction 1 as [|d ds Hd _ IH]; [reflexivity |].
  rewrite !filter_cons, IH, (not_lt_ge _ _ Hd Ht).
  destruct (PyNum.fge (score d) thresh); reflexivity.
Qed.

Lemma pick_memo (colors : gmap Z color) (pos : nat) (c : Z) :
  let '(colors1, pos1, col) := choose colors pos c in
  colors ⊆ colors1 /\ colors1 !! c = Some col /\
  match colors !! c with
  | Some _ => colors1 = colors /\ pos1 = pos
  | None =>
      colors1 = <[c := col]> colors /\ pos1 = (3 + pos)%nat /\
      col = (random_stream pos, random_stream (S pos), random_stream (S (S pos)))
  end.
Proof.
  unfold pick. destruct (colors !! c) as [col|] eqn:Hc.
  - auto.
  - repeat split; [now apply insert_subseteq | apply lookup_insert_eq].
Qed.

Lemma paint_rectangles (qs : list (drawing * float)) (colors : gmap Z color)
      (pos : nat) :
  rectangles (painted qs colors pos).1.1 = geometry <$> qs.*1.
Proof.
  revert colors pos. induction qs as [|[p s] qs IH]; intros colors pos;
    [reflexivity |].
  cbn [paint]. destruct (choose colors pos (cls_id p)) as [[c1 p1] col].
  specialize (IH c1 p1). destruct (painted qs c1 p1) as [[evs c'] p'].
  cbn in *. now rewrite IH.
Qed.

Lemma paint_facecolors (qs : list (drawing * float)) (colors : gmap Z color)
      (pos : nat) :
  facecolors (painted qs colors pos).1.1 = edgecolors (painted qs colors pos).1.1.
Proof.
  revert colors pos. induction qs as [|[p s] qs IH]; intros colors pos;
    [reflexivity |].
  cbn [paint]. destruct (choose colors pos (cls_id p)) as [[c1 p1] col].
  specialize (IH c1 p1). destruct (painted qs c1 p1) as [[evs c'] p'].
  cbn in *. now rewrite IH.
Qed.

(** Every drawn detection carries the colour the memo holds for its class
    at the end of the loop, and entries of the memo are never replaced. *)
Lemma paint_memo (qs : list (drawing * float)) (colors : gmap Z color)
      (pos : nat) :
  let '(evs, colors', pos') := painted qs colors pos in
  colors ⊆ colors' /\
  Forall2 (fun q col => colors' !! cls_id q.1 = Some col) qs (edgecolors evs).
Proof.
  revert colors pos. induction qs as [|[p s] qs IH]; intros colors pos.
  - cbn. split; [reflexivity | constructor].
  - cbn [paint]. pose proof (pick_memo colors pos (cls_id p)) as Hp.
    destruct (choose colors pos (cls_id p)) as [[c1 p1] col].
    destruct Hp as (Hsub & Hcol & _).
    specialize (IH c1 p1). destruct (painted qs c1 p1) as [[evs c'] p'].
    destruct IH as [Hsub' HF]. split; [now transitivity c1 |].
    cbn. constructor; [| exact HF].
    cbn. eapply lookup_weaken; eassumption.
Qed.

(** Three random numbers are consumed for each class that enters the memo. *)
Lemma paint_rng (qs : list (drawing * float)) (colors : gmap Z color)
      (pos : nat) :
  let '(evs, colors', pos') := painted qs colors pos in
  dom colors' = dom colors ∪ list_to_set (cls_id <$> qs.*1) /\
  (pos' + 3 * size colors = pos + 3 * size colors')%nat.
Proof.
  revert colors pos. induction qs as [|[p s] qs IH]; intros colors pos.
  - cbn. split; [set_solver | lia].
  - cbn [paint]. pose proof (pick_memo colors pos (cls_id p)) as Hp.
    destruct (choose colors pos (cls_id p)) as [[c1 p1] col].
    destruct Hp as (_ & Hcol & Hcase).
    specialize (IH c1 p1). destruct (painted qs c1 p1) as [[evs c'] p'].
    destruct IH as [Hdom Hpos]. cbn [fmap list_fmap fst list_to_set].
    destruct (colors !! cls_id p) as [old|] eqn:Hold.
    + destruct Hcase as [-> ->]. split; [| exact Hpos].
      rewrite Hdom. apply elem_of_dom_2 in Hold. set_solver.
    + destruct Hcase as (-> & -> & _). split.
      * rewrite Hdom, dom_insert_L. set_solver.
      * rewrite map_size_insert_None in Hpos by exact Hold. lia.
Qed.

Lemma paint_app (q1 q2 : list (drawing * float)) (colors : gmap Z color)
      (pos : nat) :
  painted (q1 ++ q2) colors pos
  = let '(e1, c1, p1) := painted q1 colors pos in
    let '(e2, c2, p2) := painted q2 c1 p1 in
    (e1 ++ e2, c2, p2).
Proof.
  revert colors pos. induction q1 as [|[p s] q1 IH]; intros colors pos.
  - cbn. now destruct (painted q2 colors pos) as [[e2 c2] p2].
  - cbn [app paint]. destruct (choose colors pos (cls_id p)) as [[c1 p1] col].
    rewrite IH. destruct (painted q1 c1 p1) as [[e1 c1'] p1'].
    destruct (painted q2 c1' p1') as [[e2 c2] p2].
    now rewrite <- app_assoc.
Qed.

Lemma edgecolors_length (qs : list (drawing * float)) (colors : gmap Z color)
      (pos : nat) :
  length (edgecolors (painted qs colors pos).1.1) = length qs.
Proof.
  pose proof (paint_memo qs colors pos) as H.
  destruct (painted qs colors pos) as [[evs c'] p'].
  destruct H as [_ HF]. symmetry. exact (Forall2_length _ _ _ HF).
Qed.

(** The first detection of a class takes the next three random numbers. *)
Lemma paint_first (qs : list (drawing * float)) (pos i : nat)
      (q : drawing * float) :
  qs !! i = Some q ->
  cls_id q.1 ∉ cls_id <$> (take i qs).*1 ->
  let k := (pos + 3 * size (list_to_set (cls_id <$> (take i qs).*1) : gset Z))%nat in
  edgecolors (painted qs ∅ pos).1.1 !! i
  = Some (random_stream k, random_stream (S k), random_stream (S (S k))).
Proof.
  intros Hi Hnew k.
  rewrite <- (take_drop_middle qs i q Hi), paint_app.
  pose proof (paint_rng (take i qs) ∅ pos) as Hrng.
  pose proof (edgecolors_length (take i qs) ∅ pos) as Hlen.
  destruct (painted (take i qs) ∅ pos) as [[e1 c1] p1].
  destruct Hrng as [Hdom Hpos]. cbn [fst] in Hlen.
  rewrite dom_empty_L, (left_id_L ∅ (∪)) in Hdom.
  rewrite map_size_empty in Hpos.
  assert (Hk : p1 = k).
  { subst k. rewrite <- Hdom, size_dom. lia. }
  destruct q as [p s]. cbn [paint fst] in *.
  pose proof (pick_memo c1 p1 (cls_id p)) as Hp.
  destruct (choose c1 p1 (cls_id p)) as [[c2 p2] col].
  destruct Hp as (_ & _ & Hcase).
  assert (Hnone : c1 !! cls_id p = None).
  { apply not_elem_of_dom. rewrite Hdom. rewrite elem_of_list_to_set.
    exact Hnew. }
  rewrite Hnone in Hcase. destruct Hcase as (_ & _ & ->).
  destruct (painted (drop (S i) qs) c2 p2) as [[e2 c3] p3]. cbn [fst].
  apply lookup_lt_Some in Hi.
  rewrite length_take_le in Hlen by lia.
  unfold edgecolors in *. rewrite omap_app. cbn. rewrite Hk.
  apply list_lookup_middle. symmetry. exact Hlen.
Qed.

Lemma paint_counts (qs : list (drawing * float)) (colors : gmap Z color)
      (pos : nat) :
  counts (painted qs colors pos).1.1 = [].
Proof.
  revert colors pos. induction qs as [|[p s] qs IH]; intros colors pos;
    [reflexivity |].
  cbn [paint]. destruct (pick random_stream colors pos (cls_id p)) as [[c1 p1] col].
  specialize (IH c1 p1). destruct (painted qs c1 p1) as [[evs c'] p'].
  exact IH.
Qed.

(** A call on rows of floats whose kept detections can all be drawn. *)
Lemma render_rows (img_file : string) (ds : list detection) (ps : list drawing)
      (w : world) :
  Forall2 (fun d p => plan img classes d = Some p) (kept thresh ds) ps ->
  render img_file (PList (row <$> ds)) w
  = let '(evs, _, pos') :=
      painted (zip ps (score <$> kept thresh ds)) ∅ (rng_pos w) in
    (inr tt,
     World (trace w ++ Imshow img_file :: evs
                    ++ [PrintCount (Z.of_nat (length ps)); Show])
           pos' (PList (row <$> ds))).
Proof.
  intros HF. rewrite visualize_detection_run.
  rewrite (run_rows ds ps HF).
  cbn [rng_pos trace dets_obj].
  destruct (painted _ ∅ (rng_pos w)) as [[evs c'] p'].
  cbn. now rewrite <- !app_assoc.
Qed.

Lemma zip_fst_scores (ds : list detection) (ps : list drawing) :
  Forall2 (fun d p => plan img classes d = Some p) ds ps ->
  (zip ps (score <$> ds)).*1 = ps.
Proof.
  intros HF. apply fst_zip. rewrite length_fmap.
  now rewrite (Forall2_length _ _ _ HF).
Qed.

End Drawing.

(** C5. On rows of numbers, with a threshold that is a number, a call in
    which every detection at or above the threshold can be drawn returns
    normally, has added one rectangle for each detection whose score is at
    least the threshold (the threshold itself included), in input order,
    and has printed their number.  With threshold 0.6 and scores 0.9, 0.3
    and 0.7 the rectangles are those of the first and third detection. *)
Theorem render_threshold_inclusive :
  (forall random_stream img classes thresh img_file ds ps w,
      PyNum.is_nan thresh = false ->
      Forall (fun d => PyNum.is_nan (score d) = false) ds ->
      Forall2 (fun d p => plan img classes d = Some p)
              (filter (fun d => PyNum.fge (score d) thresh) ds) ps ->
      exists new pos',
        visualize_detection random_stream img classes thresh img_file
                            (PList (row <$> ds)) w
        = (inr tt, World (trace w ++ new) pos' (PList (row <$> ds))) /\
        rectangles new = geometry <$> ps /\
        counts new
        = [Z.of_nat (length (filter (fun d => PyNum.fge (score d) thresh) ds))])
  /\
  (forall random_stream,
      let dec := PyNum.of_decimal false in
      let box1 := Detection (dec 0 0) (dec 9 (-1))
                            (dec 1 (-1)) (dec 2 (-1)) (dec 5 (-1)) (dec 6 (-1)) in
      let box2 := Detection (dec 0 0) (dec 3 (-1))
                            (dec 2 (-1)) (dec 2 (-1)) (dec 4 (-1)) (dec 4 (-1)) in
      let box3 := Detection (dec 1 0) (dec 7 (-1))
                            (dec 25 (-2)) (dec 5 (-1)) (dec 75 (-2)) (dec 1 0) in
      let run := visualize_detection random_stream
                   {| height := 512; width := 512 |} [] (dec 6 (-1)) "img.png"
                   (PList (row <$> [box1; box2; box3])) (World [] 0 PNone) in
      fst run = inr tt /\
      rectangles (trace (snd run))
      = [((51, 102), 205, 205); ((128, 256), 256, 256)] /\
      counts (trace (snd run)) = [2]).
Proof.
  split.
  - intros rs img classes thresh img_file ds ps w Ht Hs HF.
    rewrite <- (kept_ge thresh ds Ht Hs) in *.
    pose proof (render_rows rs img classes thresh img_file ds ps w HF) as Hr.
    pose proof (paint_rectangles rs (zip ps (score <$> kept thresh ds)) ∅
                                 (rng_pos w)) as Hrect.
    pose proof (paint_counts rs (zip ps (score <$> kept thresh ds)) ∅
                             (rng_pos w)) as Hcnt.
    rewrite (zip_fst_scores img classes _ _ HF) in Hrect.
    destruct (paint rs _ ∅ (rng_pos w)) as [[evs c'] pos'].
    cbn [fst] in Hrect, Hcnt.
    exists (Imshow img_file :: evs ++ [PrintCount (Z.of_nat (length ps)); Show]), pos'.
    split; [exact Hr | split].
    + unfold rectangles in *.
      change (Imshow img_file :: ?l) with ([Imshow img_file] ++ l).
      rewrite !omap_app, Hrect. cbn. now rewrite app_nil_r.
    + unfold counts in *.
      change (Imshow img_file :: ?l) with ([Imshow img_file] ++ l).
      rewrite !omap_app, Hcnt. cbn.
      now rewrite (Forall2_length _ _ _ HF).
  - intros rs dec box1 box2 box3 run. repeat split; vm_compute; reflexivity.
Qed.

Lemma render_threshold_inclusive_witness :
  let dec := PyNum.of_decimal false in
  let at_threshold := Detection (dec 0 0) (dec 6 (-1))
                                (dec 1 (-1)) (dec 2 (-1)) (dec 5 (-1)) (dec 6 (-1)) in
  let below := Detection (dec 0 0) (dec 3 (-1))
                         (dec 2 (-1)) (dec 2 (-1)) (dec 4 (-1)) (dec 4 (-1)) in
  exists new pos',
    visualize_detection (fun _ => dec 5 (-1)) {| height := 512; width := 512 |}
                        ["bird"] (dec 6 (-1)) "img.png"
                        (PList (row <$> [at_threshold; below])) (World [] 0 PNone)
    = (inr tt, World ([] ++ new) pos' (PList (row <$> [at_threshold; below]))) /\
    rectangles new = geometry <$> [Drawing 0 51 102 256 307 "bird"] /\
    counts new = [1].
Proof.
  intros dec at_threshold below.
  apply (proj1 render_threshold_inclusive (fun _ => dec 5 (-1))
               {| height := 512; width := 512 |} ["bird"] (dec 6 (-1)) "img.png"
               [at_threshold; below] [Drawing 0 51 102 256 307 "bird"]
               (World [] 0 PNone)).
  - reflexivity.
  - repeat constructor.
  - planned.
Defined.

(** C8. In one call, every drawn detection of a class has the colour, on
    its rectangle and on its label, that was drawn from the random
    generator for the first drawn detection of that class.  Nothing is
    remembered between calls: whatever was rendered before, a call takes
    three fresh random numbers for each class it draws, starting from the
    generator's state at its entry. *)
Theorem color_memo_per_call :
  forall random_stream img classes thresh img_file ds ps w,
    Forall2 (fun d p => plan img classes d = Some p) (kept thresh ds) ps ->
    exists new pos',
      visualize_detection random_stream img classes thresh img_file
                          (PList (row <$> ds)) w
      = (inr tt, World (trace w ++ new) pos' (PList (row <$> ds))) /\
      let cols := edgecolors new in
      facecolors new = cols /\
      length cols = length ps /\
      (forall i j p q,
          ps !! i = Some p -> ps !! j = Some q -> cls_id p = cls_id q ->
          cols !! i = cols !! j) /\
      (forall i p,
          ps !! i = Some p -> cls_id p ∉ cls_id <$> take i ps ->
          let k := (rng_pos w
                    + 3 * size (list_to_set (cls_id <$> take i ps) : gset Z))%nat in
          cols !! i = Some (random_stream k, random_stream (S k),
                            random_stream (S (S k)))) /\
      pos' = (rng_pos w + 3 * size (list_to_set (cls_id <$> ps) : gset Z))%nat.
Proof.
  intros rs img classes thresh img_file ds ps w HF.
  pose proof (render_rows rs img classes thresh img_file ds ps w HF) as Hr.
  pose proof (zip_fst_scores img classes _ _ HF) as Hfst.
  set (qs := zip ps (score <$> kept thresh ds)) in *.
  pose proof (paint_memo rs qs ∅ (rng_pos w)) as Hmemo.
  pose proof (paint_rng rs qs ∅ (rng_pos w)) as Hrng.
  pose proof (paint_facecolors rs qs ∅ (rng_pos w)) as Hface.
  pose proof (fun i q => paint_first rs qs (rng_pos w) i q) as Hfirst.
  destruct (paint rs qs ∅ (rng_pos w)) as [[evs c'] pos'].
  cbn [fst] in Hface, Hfirst. destruct Hmemo as [_ Hmemo].
  destruct Hrng as [Hdom Hpos].
  exists (Imshow img_file :: evs ++ [PrintCount (Z.of_nat (length ps)); Show]), pos'.
  split; [exact Hr |].
  assert (Hedge : edgecolors (Imshow img_file :: evs
                              ++ [PrintCount (Z.of_nat (length ps)); Show])
                  = edgecolors evs).
  { unfold edgecolors.
    change (Imshow img_file :: ?l) with ([Imshow img_file] ++ l).
    rewrite !omap_app. cbn. now rewrite app_nil_r. }
  assert (Hfc : facecolors (Imshow img_file :: evs
                            ++ [PrintCount (Z.of_nat (length ps)); Show])
                = facecolors evs).
  { unfold facecolors.
    change (Imshow img_file :: ?l) with ([Imshow img_file] ++ l).
    rewrite !omap_app. cbn. now rewrite app_nil_r. }
  cbv zeta. rewrite Hedge, Hfc.
  assert (Hlook : forall i p, ps !! i = Some p ->
                              exists s, qs !! i = Some (p, s)).
  { intros i p Hi. rewrite <- Hfst, list_lookup_fmap in Hi.
    destruct (qs !! i) as [[p' s]|]; [| discriminate].
    injection Hi as <-. eauto. }
  split; [exact Hface | split; [| split; [| split]]].
  - rewrite <- (Forall2_length _ _ _ Hmemo), <- Hfst. now rewrite length_fmap.
  - intros i j p q Hi Hj Hcls.
    destruct (Hlook i p Hi) as [s Hqi]. destruct (Hlook j q Hj) as [t Hqj].
    destruct (Forall2_lookup_l _ _ _ _ _ Hmemo Hqi) as (ci & -> & Hci).
    destruct (Forall2_lookup_l _ _ _ _ _ Hmemo Hqj) as (cj & -> & Hcj).
    cbn in Hci, Hcj. congruence.
  - intros i p Hi Hnew. destruct (Hlook i p Hi) as [s Hqi].
    specialize (Hfirst i (p, s) Hqi).
    rewrite fmap_take, Hfst in Hfirst. exact (Hfirst Hnew).
  - rewrite dom_empty_L, (left_id_L ∅ (∪)), Hfst in Hdom.
    rewrite map_size_empty in Hpos. rewrite <- Hdom, size_dom. lia.
Qed.

Lemma color_memo_per_call_witness :
  let dec := PyNum.of_decimal false in
  let first := Detection (dec 1 0) (dec 9 (-1))
                         (dec 1 (-1)) (dec 2 (-1)) (dec 5 (-1)) (dec 6 (-1)) in
  let again := Detection (dec 1 0) (dec 7 (-1))
                         (dec 25 (-2)) (dec 5 (-1)) (dec 75 (-2)) (dec 1 0) in
  let ps := [Drawing 1 51 102 256 307 "1"; Drawing 1 128 256 384 512 "1"] in
  let random_stream := fun n => PyNum.of_Z (Z.of_nat n) in
  exists new,
    edgecolors new !! 0%nat = edgecolors new !! 1%nat /\
    edgecolors new !! 0%nat
    = Some (random_stream 4%nat, random_stream 5%nat, random_stream 6%nat).
Proof.
  intros dec first again ps rs.
  destruct (color_memo_per_call rs {| height := 512; width := 512 |} []
              (dec 6 (-1)) "img.png" [first; again] ps (World [] 4 PNone))
    as (new & pos' & _ & _ & _ & Hsame & Hfirst & _).
  - planned.
  - exists new. split.
    + apply (Hsame 0%nat 1%nat (Drawing 1 51 102 256 307 "1")
                   (Drawing 1 128 256 384 512 "1")); reflexivity.
    + apply (Hfirst 0%nat (Drawing 1 51 102 256 307 "1") eq_refl).
      cbn. apply not_elem_of_nil.
Defined.

(** ** Labels *)

(** The fallback as far as the code has it: a class id at or past the end
    of [classes] is labelled with its number. *)
Lemma label_past_the_end (classes : list string) (c : Z) :
  Z.of_nat (length classes) <= c -> label classes c = inr (PyStr.of_int c).
Proof.
  intros Hc. unfold label.
  rewrite (proj2 (Z.ltb_ge c (Z.of_nat (length classes)))) by exact Hc.
  now rewrite andb_false_r.
Qed.

(** C6, where the code departs from it.  The guard
    [len(classes) > cls_id] lets negative class ids through to
    [classes[cls_id]]: with two class names, the id -1 is labelled with the
    last name instead of "-1", and the id -3 raises [IndexError] after the
    rectangle has been added. *)
Theorem label_negative_class_id :
  forall random_stream,
    let dec := PyNum.of_decimal false in
    let img := {| height := 512; width := 512 |} in
    let det c := Detection c (dec 9 (-1))
                           (dec 1 (-1)) (dec 2 (-1)) (dec 5 (-1)) (dec 6 (-1)) in
    let call c := visualize_detection random_stream img ["a"; "b"] (dec 6 (-1))
                    "img.png" (PList [row (det c)]) (World [] 0 PNone) in
    label ["a"; "b"] (-3) = inl IndexError /\
    label ["a"; "b"] (-1) = inr "b" /\
    fst (call (PyNum.of_decimal true 3 0)) = inl IndexError /\
    rectangles (trace (snd (call (PyNum.of_decimal true 3 0))))
    = [((51, 102), 205, 205)] /\
    fst (call (PyNum.of_decimal true 1 0)) = inr tt /\
    In (PrintDetection "b" (PFloat (dec 9 (-1))))
       (trace (snd (call (PyNum.of_decimal true 1 0)))).
Proof.
  intros rs dec img det call.
  repeat split; try (vm_compute; reflexivity).
  vm_compute. right. right. left. reflexivity.
Qed.

(** ** The endpoint's response *)

(** C7 as the specification words it fails.  The first response has a row
    whose coordinates are strings: it is not of the documented shape, yet
    the call returns normally, the row skipped for its low score.  The
    second has no "prediction" key: the call ends in the [KeyError] of the
    dictionary lookup.  The third has a row of five numbers: the call ends
    in the [ValueError] of the tuple unpacking. *)
Lemma malformed_response_not_rejected :
  let dec := PyNum.of_decimal false in
  let w := World [] 0 PNone in
  let call := show_hb_prediction (fun _ => dec 5 (-1))
                                 {| height := 512; width := 512 |} []
                                 (dec 4 (-1)) "img.png" in
  let strings := PDict [("prediction",
                         PList [PList [PInt 0; PFloat (dec 1 (-1));
                                       PStr "a"; PStr "b"; PStr "c"; PStr "d"]])] in
  let no_key := PDict [("status", PStr "ok")] in
  let short := PDict [("prediction",
                       PList [PList [PFloat (dec 0 0); PFloat (dec 9 (-1));
                                     PFloat (dec 1 (-1)); PFloat (dec 2 (-1));
                                     PFloat (dec 5 (-1))]])] in
  (Response.well_shaped strings = false /\
   fst (call strings w) = inr tt /\
   trace (snd (call strings w)) = [Imshow "img.png"; PrintCount 0; Show]) /\
  (Response.well_shaped no_key = false /\
   fst (call no_key w) = inl (KeyError "prediction")) /\
  (Response.well_shaped short = false /\
   fst (call short w) = inl (ValueError_unpack 5)).
Proof.
  intros dec w call strings no_key short.
  repeat split; vm_compute; reflexivity.
Qed.

(** * Further properties *)

(** ** The log scraper on whole streams *)

Lemma scan_marked (events : list LogEvent) (acc : list float) :
  scan events acc = scan_messages (marked events) acc.
Proof.
  unfold marked. revert acc.
  induction events as [|e events IH]; intros acc; [reflexivity |].
  cbn [scan]. rewrite filter_cons. fold (has_marker e).
  destruct (has_marker e) eqn:Hm.
  - rewrite decide_True by done. cbn [fmap list_fmap scan_messages].
    destruct (PyNum.float_of_string (extract (message e))); [apply IH | reflexivity].
  - rewrite decide_False by (intros []). apply IH.
Qed.

Lemma scan_append (e1 e2 : list LogEvent) (acc : list float) :
  scan (e1 ++ e2) acc
  = match scan e1 acc with
    | inr vs => scan e2 vs
    | inl x => inl x
    end.
Proof.
  revert acc. induction e1 as [|e e1 IH]; intros acc; [reflexivity |].
  cbn [app scan]. destruct (PyStr.contains marker (message e)); [| apply IH].
  destruct (PyNum.float_of_string (extract (message e))); [apply IH | reflexivity].
Qed.

Lemma scan_shift (events : list LogEvent) (acc new : list float) :
  scan events [] = inr new -> scan events acc = inr (acc ++ new).
Proof.
  intros (new' & -> & HF)%scan_ok. apply scan_ok. now exists new'.
Qed.

Lemma scan_error_shift (events : list LogEvent) (acc acc' : list float) (x : exn) :
  scan events acc = inl x -> scan events acc' = inl x.
Proof.
  revert acc acc'. induction events as [|e events IH]; intros acc acc';
    cbn [scan]; [discriminate |].
  destruct (PyStr.contains marker (message e)); [| apply IH].
  destruct (PyNum.float_of_string (extract (message e))); [apply IH | auto].
Qed.

(** X1. Scraping two streams one after the other is scraping their
    concatenation: the samples of [e1 ++ e2] are those of [e1] followed by
    those of [e2], repeated lines included, and a stream that fails makes
    every continuation of it fail in the same way. *)
Theorem samples_of_concatenated_streams :
  forall e1 e2,
    (forall v1 v2,
        scan e1 [] = inr v1 -> scan e2 [] = inr v2 ->
        scan (e1 ++ e2) [] = inr (v1 ++ v2)) /\
    (forall v1 x,
        scan e1 [] = inr v1 -> scan e2 [] = inl x ->
        scan (e1 ++ e2) [] = inl x) /\
    (forall x title w,
        scan e1 [] = inl x ->
        plot_object_detection_log (e1 ++ e2) title w = (inl x, w)).
Proof.
  intros e1 e2. split; [| split].
  - intros v1 v2 H1 H2. rewrite scan_append, H1. now apply scan_shift.
  - intros v1 x H1 H2. rewrite scan_append, H1. eapply scan_error_shift, H2.
  - intros x title w H1. unfold plot_object_detection_log, bind, lift.
    now rewrite scan_append, H1.
Qed.

Lemma samples_of_concatenated_streams_witness :
  let e := [log 1 "validation mAP <score>=(0.42)"; log 2 "unrelated"] in
  scan (e ++ e) [] = inr ([Prim2SF 0.42%float] ++ [Prim2SF 0.42%float]).
Proof.
  intros e.
  apply (proj1 (samples_of_concatenated_streams e e)); vm_compute; reflexivity.
Defined.

(** X2. The outcome depends on nothing but the messages that carry the
    marker, in their order: timestamps and the messages in between play no
    part. *)
Theorem only_marked_messages_matter :
  forall e1 e2 title w,
    marked e1 = marked e2 ->
    scan e1 [] = scan e2 [] /\
    plot_object_detection_log e1 title w = plot_object_detection_log e2 title w.
Proof.
  intros e1 e2 title w H.
  assert (Hs : scan e1 [] = scan e2 []) by now rewrite !scan_marked, H.
  split; [exact Hs |].
  unfold plot_object_detection_log, bind, lift. now rewrite Hs.
Qed.

Lemma only_marked_messages_matter_witness :
  let e1 := [log 5 "validation mAP <score>=(0.42)"; log 6 "unrelated"] in
  let e2 := [log 0 "epoch 3 done"; log 0 "validation mAP <score>=(0.42)"] in
  plot_object_detection_log e1 "job" (World [] 0 PNone)
  = plot_object_detection_log e2 "job" (World [] 0 PNone).
Proof.
  intros e1 e2.
  apply (proj2 (only_marked_messages_matter e1 e2 "job" (World [] 0 PNone)
                                            eq_refl)).
Defined.

Lemma scan_raises_float (events : list LogEvent) (acc : list float) (x : exn) :
  scan events acc = inl x -> exists s, x = ValueError_float s.
Proof.
  revert acc. induction events as [|e events IH]; intros acc; cbn [scan];
    [discriminate |].
  destruct (PyStr.contains marker (message e)); [| apply IH].
  destruct (PyNum.float_of_string (extract (message e))); [apply IH |].
  intros [= <-]. eauto.
Qed.

(** X3. A call ends in one of three ways and never touches anything but
    the output: [float] raised and nothing was printed; no sample was
    found, the title was printed and [max] raised; or title, maximum and
    the whole plot were produced.  In particular nothing is plotted by a
    call that raises. *)
Theorem plot_outcomes :
  forall events title w,
    let r := plot_object_detection_log events title w in
    rng_pos (snd r) = rng_pos w /\ dets_obj (snd r) = dets_obj w /\
    ((exists s, fst r = inl (ValueError_float s) /\ trace (snd r) = trace w) \/
     (fst r = inl ValueError_max_empty /\
      scan events [] = inr [] /\
      trace (snd r) = trace w ++ [PrintTitle title]) \/
     (exists best vs,
         fst r = inr tt /\ scan events [] = inr vs /\ In best vs /\
         trace (snd r) = trace w ++ report title best vs)).
Proof.
  intros events title w r. subst r.
  destruct (scan events []) as [x|vs] eqn:Hs.
  - destruct (scan_raises_float _ _ _ Hs) as [s ->].
    unfold plot_object_detection_log, bind, lift. rewrite Hs. cbn.
    repeat split. left. eauto.
  - destruct vs as [|v vs].
    + unfold plot_object_detection_log, bind, lift, emit. rewrite Hs. cbn.
      repeat split. right. left. auto.
    + destruct (max_nonempty (v :: vs)) as (best & Hm & Hin); [discriminate |].
      rewrite (plot_ok events title w (v :: vs) best Hs Hm). cbn.
      repeat split. right. right. exists best, (v :: vs). auto.
Qed.

(** ** The printed maximum *)

Lemma flt_finite (s1 s2 : bool) (m1 m2 : positive) (e1 e2 : Z) :
  PyNum.flt (S754_finite s1 m1 e1) (S754_finite s2 m2 e2) = true <->
  match s1, s2 with
  | true, false => True
  | false, true => False
  | false, false => e1 < e2 \/ (e1 = e2 /\ (m1 < m2)%positive)
  | true, true => e2 < e1 \/ (e1 = e2 /\ (m2 < m1)%positive)
  end.
Proof.
  unfold PyNum.flt, SFltb, SFcompare.
  change (Pos.compare_cont Eq m1 m2) with (m1 ?= m2)%positive.
  destruct s1, s2; [| tauto | split; [discriminate | tauto] |];
    destruct (Z.compare_spec e1 e2); destruct (Pos.compare_spec m1 m2);
    cbn; split; intros Hc; try reflexivity; try discriminate; try lia.
Qed.

Lemma flt_irrefl (x : float) : PyNum.flt x x = false.
Proof.
  destruct x as [s|s| |s m e]; try (now destruct s); try reflexivity.
  destruct (PyNum.flt (S754_finite s m e) (S754_finite s m e)) eqn:H;
    [| reflexivity].
  apply flt_finite in H. destruct s; lia.
Qed.

Lemma flt_trans (x y z : float) :
  PyNum.flt x y = true -> PyNum.flt y z = true -> PyNum.flt x z = true.
Proof.
  destruct x as [sx|sx| |sx mx ex], y as [sy|sy| |sy my ey],
           z as [sz|sz| |sz mz ez];
    try (destruct sx); try (destruct sy); try (destruct sz);
    try (cbn; congruence).
  all: rewrite !flt_finite; lia.
Qed.

(** [max] returns an item that no item is greater than. *)
Lemma max_greatest (vs : list float) (best : float) :
  Py.max vs = inr best -> Forall (fun v => PyNum.fgt v best = false) vs.
Proof.
  destruct vs as [|x r]; [discriminate |]. cbn [Py.max]. intros [= <-].
  assert (H : forall r m seen,
             Forall (fun v => PyNum.fgt v m = false) seen ->
             Forall (fun v => PyNum.fgt v
                                (fold_left (fun m y => if PyNum.fgt y m then y else m) r m)
                              = false) (seen ++ r)).
  { clear. induction r as [|y r IH]; intros m seen Hseen; cbn [fold_left].
    - now rewrite app_nil_r.
    - replace (seen ++ y :: r) with ((seen ++ [y]) ++ r)
        by now rewrite <- app_assoc.
      apply IH. apply Forall_app. split.
      + destruct (PyNum.fgt y m) eqn:Hy; [| exact Hseen].
        eapply Forall_impl; [exact Hseen |]. intros v Hv. cbn in Hv.
        destruct (PyNum.fgt v y) eqn:Hvy; [| reflexivity].
        pose proof (flt_trans m y v Hy Hvy) as Ht.
        unfold PyNum.fgt, PyNum.flt in *. congruence.
      + constructor; [| constructor].
        destruct (PyNum.fgt y m) eqn:Hy; [apply flt_irrefl | exact Hy]. }
  apply (H r x [x]). constructor; [apply flt_irrefl | constructor].
Qed.

(** X4. Whenever a maximum is printed, it is one of the samples and no
    sample is greater than it. *)
Theorem printed_maximum_is_greatest :
  forall events title w vs,
    scan events [] = inr vs -> vs <> [] ->
    exists best,
      plot_object_detection_log events title w
      = (inr tt, World (trace w ++ report title best vs)
                       (rng_pos w) (dets_obj w)) /\
      In best vs /\
      Forall (fun v => PyNum.fgt v best = false) vs.
Proof.
  intros events title w vs Hs Hne.
  destruct (max_nonempty vs Hne) as (best & Hm & Hin).
  exists best. split; [now apply plot_ok | split; [exact Hin |]].
  now apply max_greatest.
Qed.

Lemma printed_maximum_is_greatest_witness :
  let events := [log 1 "validation mAP <score>=(0.55)";
                 log 2 "validation mAP <score>=(0.42)";
                 log 3 "validation mAP <score>=(0.55)"] in
  let v42 := Prim2SF 0.42%float in
  let v55 := Prim2SF 0.55%float in
  exists best,
    plot_object_detection_log events "job" (World [] 0 PNone)
    = (inr tt, World ([] ++ report "job" best [v55; v42; v55]) 0 PNone) /\
    In best [v55; v42; v55] /\
    Forall (fun v => PyNum.fgt v best = false) [v55; v42; v55].
Proof.
  intros events v42 v55.
  apply (printed_maximum_is_greatest events "job" (World [] 0 PNone)
                                     [v55; v42; v55]).
  - vm_compute. reflexivity.
  - discriminate.
Defined.

(** ** The extracted text *)

Section ExtractedText.

Local Open Scope string_scope.

Lemma find_from_spec (c : ascii) (s : string) (i : Z) :
  (PyStr.find_from (String c "") s i = -1 /\ ~ In c (chars s)) \/
  (exists a rest,
      s = a ++ String c rest /\ ~ In c (chars a) /\
      PyStr.find_from (String c "") s i = (i + PyStr.len a)%Z).
Proof.
  revert i. induction s as [|x s IH]; intros i.
  - left. split; [reflexivity | intros []].
  - cbn [PyStr.find_from].
    destruct (String.prefix (String c "") (String x s)) eqn:E.
    + apply prefix_char in E as [r Hr]. injection Hr as <- <-.
      right. exists "", s. repeat split; [intros [] |].
      unfold PyStr.len. cbn. lia.
    + assert (Hx : c <> x).
      { intros <-. rewrite (proj2 (prefix_char c (String c s))) in E by eauto.
        discriminate. }
      destruct (IH (i + 1)%Z) as [[Hr Hnot]|(a & rest & -> & Hnot & Hr)].
      * left. split; [exact Hr |]. intros [H|H]; [congruence | auto].
      * right. exists (String x a), rest. rewrite append_cons.
        repeat split.
        -- intros [H|H]; [congruence | auto].
        -- rewrite Hr. unfold PyStr.len. cbn [String.length]. lia.
Qed.

Lemma substring_chars (n m : nat) (s : string) (x : ascii) :
  In x (chars (String.substring n m s)) -> In x (chars s).
Proof.
  revert n m. induction s as [|c s IH]; intros n m.
  - destruct n, m; cbn; auto.
  - destruct n as [|n].
    + destruct m as [|m]; cbn; [intros [] |].
      intros [H|H]; [now left | right; eapply IH, H].
    + cbn. intros H. right. eapply IH, H.
Qed.

Lemma substring_of_prefix (n m : nat) (a r : string) :
  (n + m <= String.length a)%nat ->
  String.substring n m (a ++ r) = String.substring n m a.
Proof.
  revert n m. induction a as [|c a IH]; intros n m Hle.
  - cbn in Hle. assert (n = 0%nat) as -> by lia. assert (m = 0%nat) as -> by lia.
    rewrite append_nil. now destruct r.
  - rewrite append_cons. cbn [String.length] in Hle. destruct n as [|n].
    + destruct m as [|m]; [reflexivity |]. cbn. f_equal. apply (IH 0%nat). lia.
    + cbn. apply IH. lia.
Qed.

Lemma substring_head (m : nat) (s : string) :
  exists q, s = String.substring 0 m s ++ q.
Proof.
  revert m. induction s as [|c s IH]; intros m.
  - exists "". now destruct m.
  - destruct m as [|m]; [now exists (String c s) |].
    destruct (IH m) as [q Hq]. exists q. cbn. rewrite append_cons.
    now rewrite <- Hq.
Qed.

Lemma substring_part (n m : nat) (s : string) :
  exists p q, s = p ++ String.substring n m s ++ q.
Proof.
  revert n m. induction s as [|c s IH]; intros n m.
  - exists "", "". now destruct n, m.
  - destruct n as [|n].
    + destruct (substring_head m (String c s)) as [q Hq]. now exists "", q.
    + destruct (IH n m) as (p & q & Hpq). cbn.
      exists (String c p), q. rewrite append_cons. now rewrite <- Hpq.
Qed.

Lemma slice_part (s : string) (a b : Z) :
  exists p q, s = p ++ PyStr.slice s a b ++ q.
Proof.
  unfold PyStr.slice. destruct (_ <? _)%Z; [apply substring_part |].
  exists "", s. reflexivity.
Qed.

Lemma slice_chars (s : string) (a b : Z) (x : ascii) :
  In x (chars (PyStr.slice s a b)) -> In x (chars s).
Proof.
  unfold PyStr.slice. destruct (_ <? _)%Z; [apply substring_chars | intros []].
Qed.

(** A slice that ends where [a] ends lies inside [a]. *)
Lemma slice_before (a r : string) (start : Z) (x : ascii) :
  In x (chars (PyStr.slice (a ++ r) start (PyStr.len a))) -> In x (chars a).
Proof.
  unfold PyStr.slice. rewrite len_append.
  pose proof (len_nonneg a) as Ha. pose proof (len_nonneg r) as Hr.
  set (n := (PyStr.len a + PyStr.len r)%Z).
  assert (Hend : PyStr.adjust n (PyStr.len a) = PyStr.len a).
  { unfold PyStr.adjust. rewrite (proj2 (Z.ltb_ge _ _)) by lia. lia. }
  assert (Hstart : (0 <= PyStr.adjust n start)%Z).
  { unfold PyStr.adjust. destruct (start <? 0)%Z eqn:E; [lia |].
    apply Z.ltb_ge in E. lia. }
  rewrite Hend. destruct (_ <? _)%Z eqn:Hlt; [| intros []].
  apply Z.ltb_lt in Hlt. rewrite substring_of_prefix.
  - apply substring_chars.
  - unfold PyStr.len in *. lia.
Qed.

End ExtractedText.

(** X5. The text handed to [float] is a contiguous part of the message and
    never contains a ")". *)
Theorem extracted_text_is_a_part_without_closing_parenthesis :
  forall msg,
    (exists p q, msg = (p ++ extract msg ++ q)%string) /\
    ~ In ")"%char (chars (extract msg)).
Proof.
  intros msg. split; [apply slice_part |].
  unfold extract, PyStr.find.
  destruct (find_from_spec ")" msg 0) as [[Hj Hnot]|(a & rest & Hmsg & Hnot & Hj)].
  - intros Hin. apply Hnot. eapply slice_chars, Hin.
  - rewrite Hj, Z.add_0_l.
    generalize (PyStr.find_from "(" msg 0 + 1). intros start. rewrite Hmsg.
    intros Hin. apply Hnot. eapply slice_before, Hin.
Qed.

(** ** Labels, case by case *)

(** X6. The label of a class id: its number when [classes] is empty or the
    id is at or past its end, the name at that index when the id is within
    range, the name counted from the end when the id is negative but not
    below [-len(classes)], and [IndexError] below that. *)
Theorem label_cases :
  forall (classes : list string) (c : Z),
    let n := Z.of_nat (length classes) in
    (classes = [] \/ n <= c -> label classes c = inr (PyStr.of_int c)) /\
    (0 <= c < n ->
     exists name, classes !! Z.to_nat c = Some name /\
                  label classes c = inr name) /\
    (- n <= c < 0 ->
     exists name, classes !! Z.to_nat (c + n) = Some name /\
                  label classes c = inr name) /\
    (classes <> [] -> c < - n -> label classes c = inl IndexError).
Proof.
  intros classes c n. unfold label, Py.getitem_list. fold n.
  split; [| split; [| split]].
  - intros [-> | Hc]; [reflexivity |].
    rewrite (proj2 (Z.ltb_ge c n)) by exact Hc. now rewrite andb_false_r.
  - intros [H0 Hn].
    assert (Hne : Nat.eqb (length classes) 0 = false) by (apply Nat.eqb_neq; lia).
    rewrite Hne, (proj2 (Z.ltb_lt c n)) by exact Hn. cbn [negb andb].
    rewrite (proj2 (Z.ltb_ge c 0)) by exact H0.
    rewrite (proj2 (Z.leb_le 0 c)) by exact H0.
    rewrite (proj2 (Z.ltb_lt c n)) by exact Hn. cbn [andb].
    destruct (lookup_lt_is_Some_2 classes (Z.to_nat c)) as [name Hname]; [lia |].
    exists name. now rewrite Hname.
  - intros [Hn H0].
    assert (Hne : Nat.eqb (length classes) 0 = false) by (apply Nat.eqb_neq; lia).
    rewrite Hne, (proj2 (Z.ltb_lt c n)) by lia. cbn [negb andb].
    rewrite (proj2 (Z.ltb_lt c 0)) by exact H0.
    rewrite (proj2 (Z.leb_le 0 (c + n))) by lia.
    rewrite (proj2 (Z.ltb_lt (c + n) n)) by lia. cbn [andb].
    destruct (lookup_lt_is_Some_2 classes (Z.to_nat (c + n))) as [name Hname];
      [lia |].
    exists name. now rewrite Hname.
  - intros Hne Hc.
    assert (Hlen : Nat.eqb (length classes) 0 = false).
    { apply Nat.eqb_neq. destruct classes; [congruence | cbn; lia]. }
    rewrite Hlen, (proj2 (Z.ltb_lt c n)) by lia. cbn [negb andb].
    rewrite (proj2 (Z.ltb_lt c 0)) by lia.
    now rewrite (proj2 (Z.leb_gt 0 (c + n))) by lia.
Qed.

Lemma label_cases_witness :
  label ["bird"; "frog"; "bat"] (-2) = inr "frog" /\
  label ["bird"; "frog"; "bat"] (-4) = inl IndexError /\
  label ["bird"; "frog"; "bat"] 3 = inr "3".
Proof.
  destruct (label_cases ["bird"; "frog"; "bat"] (-2)) as (_ & _ & Hneg & _).
  destruct (label_cases ["bird"; "frog"; "bat"] (-4)) as (_ & _ & _ & Hlow).
  destruct (label_cases ["bird"; "frog"; "bat"] 3) as (Hpast & _).
  split; [| split].
  - destruct Hneg as (name & Hname & ->); [cbn; lia |].
    cbn in Hname. now injection Hname as <-.
  - apply Hlow; [discriminate | cbn; lia].
  - rewrite Hpast; [reflexivity | right; cbn; lia].
Defined.

(** ** What a call of the renderer adds, for any [dets] *)

Section Tally.

Variable random_stream : nat -> float.
Variable img : image.
Variable classes : list string.
Variable thresh : float.

Local Abbreviation loop_body := (body random_stream img classes thresh).
Local Abbreviation render :=
  (visualize_detection random_stream img classes thresh).
Local Abbreviation run_items := (run random_stream img classes thresh).

Ltac leaf :=
  first
    [ exists []; split; [now rewrite app_nil_r | cbn; auto with lia]
    | eexists; split;
      [cbn; rewrite <- ?app_assoc; reflexivity | cbn; auto with lia] ].

(** One pass adds nothing, or a rectangle with its printed line and its
    label while counting it, or stops at an exception with at most the
    rectangle added. *)
Lemma body_tally (det : pyval) (colors : gmap Z color) (n : Z) (w : world) :
  let r := loop_body det (colors, n) w in
  exists new,
    trace (snd r) = trace w ++ new /\
    counts new = [] /\
    match fst r with
    | inr (_, n') =>
        length (rectangles new) = length (facecolors new) /\
        n' = n + Z.of_nat (length (rectangles new))
    | inl _ => facecolors new = [] /\ (length (rectangles new) <= 1)%nat
    end.
Proof.
  unfold body, bind, lift, random, ret, raise, emit.
  destruct (Py.unpack6 det) as [e|[[[[[k s] a] b] c] d]]; cbn; [leaf |].
  destruct (Py.lt_float s thresh) as [e|[|]]; cbn; [leaf | leaf |].
  destruct (Py.int k) as [e|z]; cbn; [leaf |].
  destruct (colors !! z) as [col|] eqn:Hcol; cbn.
  - destruct (pixel a (width img)); cbn; [leaf |].
    destruct (pixel b (height img)); cbn; [leaf |].
    destruct (pixel c (width img)); cbn; [leaf |].
    destruct (pixel d (height img)); cbn; [leaf |].
    rewrite Hcol; cbn.
    destruct (label classes z); cbn; [leaf |].
    destruct (Py.format_f s) as [e|[]]; cbn; leaf.
  - destruct (pixel a (width img)); cbn; [leaf |].
    destruct (pixel b (height img)); cbn; [leaf |].
    destruct (pixel c (width img)); cbn; [leaf |].
    destruct (pixel d (height img)); cbn; [leaf |].
    rewrite lookup_insert_eq; cbn.
    destruct (label classes z); cbn; [leaf |].
    destruct (Py.format_f s) as [e|[]]; cbn; leaf.
Qed.

Lemma rectangles_app (l k : list event) :
  rectangles (l ++ k) = rectangles l ++ rectangles k.
Proof. apply omap_app. Qed.

Lemma facecolors_app (l k : list event) :
  facecolors (l ++ k) = facecolors l ++ facecolors k.
Proof. apply omap_app. Qed.

Lemma counts_app (l k : list event) : counts (l ++ k) = counts l ++ counts k.
Proof. apply omap_app. Qed.

Lemma run_tally (items : list pyval) (colors : gmap Z color) (n : Z) (w : world) :
  let r := run_items items (colors, n) w in
  exists new,
    trace (snd r) = trace w ++ new /\
    counts new = [] /\
    match fst r with
    | inr (_, n') =>
        length (rectangles new) = length (facecolors new) /\
        n' = n + Z.of_nat (length (rectangles new))
    | inl _ =>
        (length (facecolors new) <= length (rectangles new)
         <= S (length (facecolors new)))%nat
    end.
Proof.
  revert colors n w. induction items as [|det items IH]; intros colors n w.
  - exists []. cbn. rewrite app_nil_r. repeat split; lia.
  - cbn [run]. unfold bind.
    destruct (body_tally det colors n w) as (new1 & Ht1 & Hc1 & H1).
    destruct (loop_body det (colors, n) w) as [[e|[colors1 n1]] w1];
      cbn [fst snd] in *.
    + exists new1. destruct H1 as [Hf Hr]. rewrite Hf. cbn.
      repeat split; [exact Ht1 | exact Hc1 | lia | lia].
    + destruct (IH colors1 n1 w1) as (new2 & Ht2 & Hc2 & H2).
      exists (new1 ++ new2). split; [| split].
      * rewrite Ht2, Ht1. now rewrite app_assoc.
      * now rewrite counts_app, Hc1, Hc2.
      * rewrite rectangles_app, facecolors_app, !length_app.
        destruct H1 as [Hrf Hn1].
        destruct (fst (run_items items (colors1, n1) w1)) as [e|[colors' n']].
        -- lia.
        -- destruct H2 as [Hrf2 Hn2]. split; lia.
Qed.

Lemma visualize_detection_iter (img_file : string) (dets : pyval) (w : world) :
  render img_file dets w
  = match Py.iter dets with
    | inl e => (inl e, World (trace w ++ [Imshow img_file]) (rng_pos w) dets)
    | inr items =>
        match run_items items (∅, 0)
                (World (trace w ++ [Imshow img_file]) (rng_pos w) dets) with
        | (inr (_, n), w') =>
            (inr tt, World (trace w' ++ [PrintCount n; Show])
                           (rng_pos w') (dets_obj w'))
        | (inl e, w') => (inl e, w')
        end
    end.
Proof.
  unfold visualize_detection, bind, bind_dets, emit, lift. cbn.
  destruct (Py.iter dets) as [e|items] eqn:Hit; [reflexivity |].
  rewrite (for_dets_run random_stream img classes thresh items)
    by (cbn; auto).
  rewrite drop_0.
  destruct (run_items items _) as [[e|[c n]] w']; [reflexivity |].
  cbn. now rewrite <- app_assoc.
Qed.

End Tally.

(** X7. Whatever [dets] is, a call first shows the image.  If it returns,
    it has added as many labels as rectangles and printed exactly that
    number once; if it raises, no count is printed and at most the last
    rectangle is without its label. *)
Theorem detections_counted :
  forall random_stream img classes thresh img_file dets w,
    let r := visualize_detection random_stream img classes thresh
                                 img_file dets w in
    exists new,
      trace (snd r) = trace w ++ Imshow img_file :: new /\
      match fst r with
      | inr _ =>
          counts new = [Z.of_nat (length (rectangles new))] /\
          length (facecolors new) = length (rectangles new) /\
          last new = Some Show
      | inl _ =>
          counts new = [] /\
          (length (facecolors new) <= length (rectangles new)
           <= S (length (facecolors new)))%nat
      end.
Proof.
  intros rs img classes thresh img_file dets w r. subst r.
  rewrite visualize_detection_iter.
  destruct (Py.iter dets) as [e|items].
  - exists []. cbn. repeat split; lia.
  - destruct (run_tally rs img classes thresh items ∅ 0
                        (World (trace w ++ [Imshow img_file]) (rng_pos w) dets))
      as (new & Ht & Hc & H).
    destruct (run rs img classes thresh items _ _) as [[e|[colors n]] w'];
      cbn [fst snd trace] in *.
    + exists new. split; [| split; [exact Hc | exact H]].
      rewrite Ht. now rewrite <- app_assoc.
    + destruct H as [Hrf Hn]. exists (new ++ [PrintCount n; Show]).
      split; [| split; [| split]].
      * rewrite Ht. now rewrite <- !app_assoc.
      * rewrite counts_app, rectangles_app, Hc, length_app. cbn.
        rewrite Nat.add_0_r. f_equal. lia.
      * rewrite facecolors_app, rectangles_app, !length_app. cbn. lia.
      * rewrite last_app. reflexivity.
Qed.

(** ** Rows that are skipped, rows that stop the call *)

Section Rows.

Variable random_stream : nat -> float.
Variable img : image.
Variable classes : list string.
Variable thresh : float.

Local Abbreviation loop_body := (body random_stream img classes thresh).
Local Abbreviation render :=
  (visualize_detection random_stream img classes thresh).
Local Abbreviation run_items := (run random_stream img classes thresh).

Lemma body_skips (det : pyval) (l : locals) (w : world) :
  below_threshold thresh det -> loop_body det l w = (inr l, w).
Proof.
  intros (k & s & a & b & c & d & -> & Hlt). destruct l as [colors n].
  unfold body, bind, lift. cbn [Py.unpack6 Py.iter]. now rewrite Hlt.
Qed.

Lemma run_skips (items : list pyval) (l : locals) (w : world) :
  Forall (below_threshold thresh) items -> run_items items l w = (inr l, w).
Proof.
  induction 1 as [|det items Hdet _ IH]; [reflexivity |].
  cbn [run]. unfold bind. now rewrite (body_skips det l w Hdet).
Qed.

Lemma run_app (a b : list pyval) (l : locals) (w : world) :
  run_items (a ++ b) l w
  = match run_items a l w with
    | (inr l', w') => run_items b l' w'
    | (inl e, w') => (inl e, w')
    end.
Proof.
  revert l w. induction a as [|det a IH]; intros l w; [reflexivity |].
  cbn [app run]. unfold bind.
  destruct (loop_body det l w) as [[e|l'] w']; [reflexivity | apply IH].
Qed.

Lemma body_unpack_error (det : pyval) (l : locals) (w : world) (e : exn) :
  Py.unpack6 det = inl e -> loop_body det l w = (inl e, w).
Proof.
  intros H. destruct l as [colors n]. unfold body, bind, lift. now rewrite H.
Qed.

Lemma kept_idem (ds : list detection) : kept thresh (kept thresh ds) = kept thresh ds.
Proof.
  unfold kept. induction ds as [|d ds IH]; [reflexivity |].
  rewrite filter_cons.
  destruct (decide (negb (PyNum.flt (score d) thresh))) as [Hd|Hd]; [| exact IH].
  rewrite filter_cons, decide_True by exact Hd. now rewrite IH.
Qed.

End Rows.

(** X8. When every row is a six-element row whose score is below the
    threshold, the empty list included, the call shows the image, prints
    the count 0 and draws nothing: the other five values of such rows are
    never looked at and no random number is consumed. *)
Theorem low_scores_draw_nothing :
  forall random_stream img classes thresh img_file items w,
    Forall (below_threshold thresh) items ->
    visualize_detection random_stream img classes thresh img_file
                        (PList items) w
    = (inr tt, World (trace w ++ [Imshow img_file; PrintCount 0; Show])
                     (rng_pos w) (PList items)).
Proof.
  intros rs img classes thresh img_file items w H.
  rewrite visualize_detection_run, (run_skips rs img classes thresh items _ _ H).
  cbn. now rewrite <- app_assoc.
Qed.

Lemma low_scores_draw_nothing_witness :
  let dec := PyNum.of_decimal false in
  let items := [PList [PStr "owl"; PFloat (dec 2 (-1)); PNone; PNone; PNone; PNone];
                PList [PInt 7; PInt 0; PStr "x"; PStr "y"; PStr "z"; PStr "t"]] in
  visualize_detection (fun _ => dec 5 (-1)) {| height := 512; width := 512 |}
                      ["bird"] (dec 6 (-1)) "img.png" (PList items)
                      (World [] 9 PNone)
  = (inr tt, World ([] ++ [Imshow "img.png"; PrintCount 0; Show]) 9 (PList items)).
Proof.
  intros dec items.
  apply (low_scores_draw_nothing (fun _ => dec 5 (-1))
           {| height := 512; width := 512 |} ["bird"] (dec 6 (-1)) "img.png"
           items (World [] 9 PNone)).
  repeat (apply Forall_cons; split;
          [do 6 eexists; split; [reflexivity | vm_compute; reflexivity] |]).
  apply Forall_nil_2.
Defined.

(** X9. Removing beforehand the rows whose score is below the threshold
    changes neither what is drawn and printed nor the random numbers
    consumed. *)
Theorem dropping_low_scores_changes_nothing :
  forall random_stream img classes thresh img_file ds ps w,
    Forall2 (fun d p => plan img classes d = Some p) (kept thresh ds) ps ->
    let all := visualize_detection random_stream img classes thresh img_file
                                   (PList (row <$> ds)) w in
    let some := visualize_detection random_stream img classes thresh img_file
                                    (PList (row <$> kept thresh ds)) w in
    fst all = inr tt /\ fst some = inr tt /\
    trace (snd all) = trace (snd some) /\
    rng_pos (snd all) = rng_pos (snd some).
Proof.
  intros rs img classes thresh img_file ds ps w HF all some.
  subst all some.
  rewrite (render_rows rs img classes thresh img_file ds ps w HF).
  assert (HF' : Forall2 (fun d p => plan img classes d = Some p)
                        (kept thresh (kept thresh ds)) ps)
    by now rewrite kept_idem.
  rewrite (render_rows rs img classes thresh img_file (kept thresh ds) ps w HF').
  rewrite kept_idem.
  destruct (paint rs _ ∅ (rng_pos w)) as [[evs c'] pos']. cbn. auto.
Qed.

Lemma dropping_low_scores_changes_nothing_witness :
  let dec := PyNum.of_decimal false in
  let high := Detection (dec 0 0) (dec 9 (-1))
                        (dec 1 (-1)) (dec 2 (-1)) (dec 5 (-1)) (dec 6 (-1)) in
  let low := Detection (dec 0 0) (dec 3 (-1))
                       (dec 2 (-1)) (dec 2 (-1)) (dec 4 (-1)) (dec 4 (-1)) in
  let call ds := visualize_detection (fun _ => dec 5 (-1))
                   {| height := 512; width := 512 |} ["bird"] (dec 6 (-1))
                   "img.png" (PList (row <$> ds)) (World [] 0 PNone) in
  trace (snd (call [low; high; low]))
  = trace (snd (call (kept (dec 6 (-1)) [low; high; low]))).
Proof.
  intros dec high low call.
  refine (proj1 (proj2 (proj2
            (dropping_low_scores_changes_nothing (fun _ => dec 5 (-1))
               {| height := 512; width := 512 |} ["bird"] (dec 6 (-1)) "img.png"
               [low; high; low] [Drawing 0 51 102 256 307 "bird"]
               (World [] 0 PNone) _)))).
  planned.
Defined.

(** X10. [test_model] renders "hummingbird-1.jpg" with the threshold 0.40
    of [show_hb_prediction], not the 0.6 that [visualize_detection] has by
    default: for a response of rows of numbers it returns with one
    rectangle for each detection scoring at least 0.40, in response order;
    for a response without the key "prediction" it ends in [KeyError]. *)
Theorem test_model_threshold :
  forall random_stream img classes w,
    let th := PyNum.of_decimal false 40 (-2) in
    (forall ds ps,
        Forall (fun d => PyNum.is_nan (score d) = false) ds ->
        Forall2 (fun d p => plan img classes d = Some p)
                (filter (fun d => PyNum.fge (score d) th) ds) ps ->
        exists new pos',
          test_model random_stream img classes
                     (PDict [("prediction", PList (row <$> ds))]) w
          = (inr tt, World (trace w ++ Imshow "hummingbird-1.jpg" :: new) pos'
                           (PList (row <$> ds))) /\
          rectangles new = geometry <$> ps /\
          counts new = [Z.of_nat (length ps)]) /\
    (forall d,
        Py.assoc "prediction" d = None ->
        test_model random_stream img classes (PDict d) w
        = (inl (KeyError "prediction"), w)).
Proof.
  intros rs img classes w th. split.
  - intros ds ps Hs HF.
    rewrite <- (kept_ge th ds eq_refl Hs) in HF.
    pose proof (render_rows rs img classes th "hummingbird-1.jpg" ds ps w HF) as Hr.
    pose proof (paint_rectangles rs (zip ps (score <$> kept th ds)) ∅
                                 (rng_pos w)) as Hrect.
    pose proof (paint_counts rs (zip ps (score <$> kept th ds)) ∅
                             (rng_pos w)) as Hcnt.
    rewrite (zip_fst_scores img classes _ _ HF) in Hrect.
    destruct (paint rs _ ∅ (rng_pos w)) as [[evs c'] pos'].
    cbn [fst] in Hrect, Hcnt.
    exists (evs ++ [PrintCount (Z.of_nat (length ps)); Show]), pos'.
    split; [| split].
    + unfold test_model, show_hb_prediction, bind, lift.
      cbn [Py.getitem_str Py.assoc String.eqb]. exact Hr.
    + unfold rectangles in *. rewrite omap_app, Hrect. cbn.
      now rewrite app_nil_r.
    + unfold counts in *. rewrite omap_app, Hcnt. reflexivity.
  - intros d H. unfold test_model, show_hb_prediction, bind, lift. cbn.
    now rewrite H.
Qed.

Lemma test_model_threshold_witness :
  let dec := PyNum.of_decimal false in
  let between := Detection (dec 0 0) (dec 5 (-1))
                           (dec 1 (-1)) (dec 2 (-1)) (dec 5 (-1)) (dec 6 (-1)) in
  exists new pos',
    test_model (fun _ => dec 5 (-1)) {| height := 512; width := 512 |} ["bird"]
               (PDict [("prediction", PList (row <$> [between]))])
               (World [] 0 PNone)
    = (inr tt, World ([] ++ Imshow "hummingbird-1.jpg" :: new) pos'
                     (PList (row <$> [between]))) /\
    rectangles new = geometry <$> [Drawing 0 51 102 256 307 "bird"] /\
    counts new = [1].
Proof.
  intros dec between.
  apply (proj1 (test_model_threshold (fun _ => dec 5 (-1))
                  {| height := 512; width := 512 |} ["bird"] (World [] 0 PNone))
               [between] [Drawing 0 51 102 256 307 "bird"]).
  - repeat constructor.
  - planned.
Defined.

(** X11. A row that does not unpack into six values stops the call at that
    row: the rows before it have been drawn, the rows after it are never
    looked at, and no count is printed. *)
Theorem malformed_row_stops_the_call :
  forall random_stream img classes thresh img_file ds ps bad rest e w,
    Forall2 (fun d p => plan img classes d = Some p) (kept thresh ds) ps ->
    Py.unpack6 bad = inl e ->
    exists new pos',
      visualize_detection random_stream img classes thresh img_file
                          (PList ((row <$> ds) ++ bad :: rest)) w
      = (inl e, World (trace w ++ Imshow img_file :: new) pos'
                      (PList ((row <$> ds) ++ bad :: rest))) /\
      rectangles new = geometry <$> ps /\
      counts new = [].
Proof.
  intros rs img classes thresh img_file ds ps bad rest e w HF Hbad.
  rewrite visualize_detection_run, run_app.
  rewrite (run_rows rs img classes thresh ds ps HF). cbn [rng_pos trace dets_obj].
  pose proof (paint_rectangles rs (zip ps (score <$> kept thresh ds)) ∅
                               (rng_pos w)) as Hrect.
  pose proof (paint_counts rs (zip ps (score <$> kept thresh ds)) ∅
                           (rng_pos w)) as Hcnt.
  rewrite (zip_fst_scores img classes _ _ HF) in Hrect.
  destruct (paint rs _ ∅ (rng_pos w)) as [[evs c'] pos'].
  cbn [fst] in Hrect, Hcnt.
  cbn [run]. unfold bind.
  rewrite (body_unpack_error rs img classes thresh bad _ _ e Hbad).
  exists evs, pos'. split; [| split; assumption].
  now rewrite <- app_assoc.
Qed.

Lemma malformed_row_stops_the_call_witness :
  let dec := PyNum.of_decimal false in
  let good := Detection (dec 0 0) (dec 9 (-1))
                        (dec 1 (-1)) (dec 2 (-1)) (dec 5 (-1)) (dec 6 (-1)) in
  let short := PList [PFloat (dec 0 0); PFloat (dec 9 (-1))] in
  exists new pos',
    visualize_detection (fun _ => dec 5 (-1)) {| height := 512; width := 512 |}
                        ["bird"] (dec 6 (-1)) "img.png"
                        (PList ((row <$> [good]) ++ short :: [row good]))
                        (World [] 0 PNone)
    = (inl (ValueError_unpack 2),
       World ([] ++ Imshow "img.png" :: new) pos'
             (PList ((row <$> [good]) ++ short :: [row good]))) /\
    rectangles new = geometry <$> [Drawing 0 51 102 256 307 "bird"] /\
    counts new = [].
Proof.
  intros dec good short.
  apply (malformed_row_stops_the_call (fun _ => dec 5 (-1))
           {| height := 512; width := 512 |} ["bird"] (dec 6 (-1)) "img.png"
           [good] [Drawing 0 51 102 256 307 "bird"] short [row good]
           (ValueError_unpack 2) (World [] 0 PNone)).
  - planned.
  - reflexivity.
Defined.

(** ** Raising the threshold *)

Lemma fge_finite (s1 s2 : bool) (m1 m2 : positive) (e1 e2 : Z) :
  PyNum.fge (S754_finite s2 m2 e2) (S754_finite s1 m1 e1) = true <->
  match s1, s2 with
  | true, false => True
  | false, true => False
  | false, false => e1 < e2 \/ (e1 = e2 /\ (m1 <= m2)%positive)
  | true, true => e2 < e1 \/ (e1 = e2 /\ (m2 <= m1)%positive)
  end.
Proof.
  unfold PyNum.fge, SFleb, SFcompare.
  change (Pos.compare_cont Eq m1 m2) with (m1 ?= m2)%positive.
  destruct s1, s2; [| tauto | split; [discriminate | tauto] |];
    destruct (Z.compare_spec e1 e2); destruct (Pos.compare_spec m1 m2);
    cbn; split; intros Hc; try reflexivity; try discriminate; try lia.
Qed.

(** Below a threshold is below every threshold that is at least as high. *)
Lemma flt_fge_trans (s t1 t2 : float) :
  PyNum.flt s t1 = true -> PyNum.fge t2 t1 = true -> PyNum.flt s t2 = true.
Proof.
  destruct s as [ss|ss| |ss ms es], t1 as [s1|s1| |s1 m1 e1],
           t2 as [s2|s2| |s2 m2 e2];
    try (destruct ss); try (destruct s1); try (destruct s2);
    try (cbn; congruence).
  all: rewrite !flt_finite, fge_finite; lia.
Qed.

Lemma Forall2_of_sublist {A B} (R : A -> B -> Prop) (l l' : list A) (k : list B) :
  Forall2 R l k -> sublist l' l ->
  exists k', sublist k' k /\ Forall2 R l' k'.
Proof.
  intros HF. revert l'. induction HF as [|x y l k Hxy HF IH]; intros l' Hsub.
  - apply sublist_nil_r in Hsub as ->. exists []. split; constructor.
  - apply sublist_cons_r in Hsub as [Hsub|(l'' & -> & Hsub)].
    + destruct (IH _ Hsub) as (k' & Hk & HF'). exists k'.
      split; [now apply sublist_cons | exact HF'].
    + destruct (IH _ Hsub) as (k' & Hk & HF'). exists (y :: k').
      split; [now apply sublist_skip | now constructor].
Qed.

Lemma kept_higher (t1 t2 : float) (ds : list detection) :
  PyNum.fge t2 t1 = true -> sublist (kept t2 ds) (kept t1 ds).
Proof.
  intros Hle. unfold kept. induction ds as [|d ds IH]; [constructor |].
  rewrite !filter_cons.
  destruct (PyNum.flt (score d) t1) eqn:H1.
  - rewrite (flt_fge_trans _ _ _ H1 Hle). cbn [negb].
    rewrite !decide_False by (intros []). exact IH.
  - cbn [negb]. rewrite (decide_True (P := Is_true true)) by done.
    destruct (decide (negb (PyNum.flt (score d) t2)));
      [now apply sublist_skip | now apply sublist_cons].
Qed.

(** X12. Raising the threshold never draws more: when the detections kept
    at a threshold can be drawn, the call at any threshold that is at
    least as high returns too, and its rectangles are, in the same order,
    among those of the lower threshold. *)
Theorem higher_threshold_draws_a_sublist :
  forall random_stream img classes t1 t2 img_file ds ps1 w,
    PyNum.fge t2 t1 = true ->
    Forall2 (fun d p => plan img classes d = Some p) (kept t1 ds) ps1 ->
    exists ps2 new pos',
      sublist (geometry <$> ps2) (geometry <$> ps1) /\
      visualize_detection random_stream img classes t2 img_file
                          (PList (row <$> ds)) w
      = (inr tt, World (trace w ++ Imshow img_file :: new) pos'
                       (PList (row <$> ds))) /\
      rectangles new = geometry <$> ps2 /\
      counts new = [Z.of_nat (length ps2)].
Proof.
  intros rs img classes t1 t2 img_file ds ps1 w Hle HF1.
  destruct (Forall2_of_sublist _ _ _ _ HF1 (kept_higher t1 t2 ds Hle))
    as (ps2 & Hsub & HF2).
  pose proof (render_rows rs img classes t2 img_file ds ps2 w HF2) as Hr.
  pose proof (paint_rectangles rs (zip ps2 (score <$> kept t2 ds)) ∅
                               (rng_pos w)) as Hrect.
  pose proof (paint_counts rs (zip ps2 (score <$> kept t2 ds)) ∅
                           (rng_pos w)) as Hcnt.
  rewrite (zip_fst_scores img classes _ _ HF2) in Hrect.
  destruct (paint rs _ ∅ (rng_pos w)) as [[evs c'] pos'].
  cbn [fst] in Hrect, Hcnt.
  exists ps2, (evs ++ [PrintCount (Z.of_nat (length ps2)); Show]), pos'.
  split; [now apply fmap_sublist | split; [exact Hr | split]].
  - unfold rectangles in *. rewrite omap_app, Hrect. cbn. now rewrite app_nil_r.
  - unfold counts in *. rewrite omap_app, Hcnt. reflexivity.
Qed.

Lemma higher_threshold_draws_a_sublist_witness :
  let dec := PyNum.of_decimal false in
  let high := Detection (dec 0 0) (dec 9 (-1))
                        (dec 1 (-1)) (dec 2 (-1)) (dec 5 (-1)) (dec 6 (-1)) in
  let mid := Detection (dec 0 0) (dec 5 (-1))
                       (dec 25 (-2)) (dec 5 (-1)) (dec 75 (-2)) (dec 1 0) in
  let ps1 := [Drawing 0 128 256 384 512 "bird"; Drawing 0 51 102 256 307 "bird"] in
  exists ps2 new pos',
    sublist (geometry <$> ps2) (geometry <$> ps1) /\
    visualize_detection (fun _ => dec 5 (-1)) {| height := 512; width := 512 |}
                        ["bird"] (dec 6 (-1)) "img.png"
                        (PList (row <$> [mid; high])) (World [] 0 PNone)
    = (inr tt, World ([] ++ Imshow "img.png" :: new) pos'
                     (PList (row <$> [mid; high]))) /\
    rectangles new = geometry <$> ps2 /\
    counts new = [Z.of_nat (length ps2)].
Proof.
  intros dec high mid ps1.
  apply (higher_threshold_draws_a_sublist (fun _ => dec 5 (-1))
           {| height := 512; width := 512 |} ["bird"] (dec 4 (-1)) (dec 6 (-1))
           "img.png" [mid; high] ps1 (World [] 0 PNone)).
  - vm_compute. reflexivity.
  - planned.
Defined.

(** ** A line of the training log, read back *)

Section LogLine.

Local Open Scope string_scope.

Lemma prefix_append (sub r : string) : String.prefix sub (sub ++ r) = true.
Proof.
  induction sub as [|c sub IH]; [now destruct r |].
  rewrite append_cons. cbn. destruct (ascii_dec c c); [exact IH | congruence].
Qed.

Lemma find_from_nonneg (sub a r : string) (i : Z) :
  (0 <= i)%Z -> (0 <= PyStr.find_from sub (a ++ sub ++ r) i)%Z.
Proof.
  revert i. induction a as [|x a IH]; intros i Hi.
  - rewrite append_nil.
    destruct (sub ++ r) eqn:E; cbn [PyStr.find_from];
      rewrite <- E, prefix_append; exact Hi.
  - rewrite append_cons. cbn [PyStr.find_from].
    destruct (String.prefix sub (String x (a ++ sub ++ r))); [exact Hi |].
    apply IH. lia.
Qed.

Lemma contains_append (sub a r : string) :
  PyStr.contains sub (a ++ sub ++ r) = true.
Proof.
  unfold PyStr.contains, PyStr.find. apply Z.leb_le.
  now apply find_from_nonneg.
Qed.

End LogLine.

(** X13. A line written as text without parentheses, the marker, then a
    payload in parentheses is read back as the float of that payload,
    whatever follows the closing parenthesis; the sample is appended to
    those already collected. *)
Theorem log_line_read_back :
  forall t (before payload after : string) v acc,
    ~ In "("%char (chars before) -> ~ In ")"%char (chars before) ->
    ~ In ")"%char (chars payload) ->
    PyNum.float_of_string payload = Some v ->
    let line := (before ++ marker ++ "(" ++ payload ++ ")" ++ after)%string in
    has_marker (log t line) = true /\
    extract line = payload /\
    scan [log t line] acc = inr (acc ++ [v]).
Proof.
  intros t before payload after v acc Hb1 Hb2 Hp Hv line.
  assert (Hm : has_marker (log t line) = true).
  { unfold has_marker. cbn [message log]. apply contains_append. }
  assert (He : extract line = payload).
  { subst line. rewrite <- append_assoc.
    apply extract_between; [| | exact Hp];
      rewrite chars_append; intros [H|H]%in_app_or; auto;
      vm_compute in H; intuition discriminate. }
  split; [exact Hm | split; [exact He |]].
  cbn [scan]. fold (has_marker (log t line)). rewrite Hm.
  cbn [message log]. now rewrite He, Hv.
Qed.

Lemma log_line_read_back_witness :
  scan [log 3 ("#quality_metric: host=algo-1, epoch=7 " ++ marker ++ "("
               ++ "0.8125" ++ ")" ++ "")%string] [Prim2SF 0.5%float]
  = inr ([Prim2SF 0.5%float] ++ [Prim2SF 0.8125%float]).
Proof.
  apply (log_line_read_back 3 "#quality_metric: host=algo-1, epoch=7 " "0.8125" ""
                            (Prim2SF 0.8125%float) [Prim2SF 0.5%float]).
  - vm_compute. intuition discriminate.
  - vm_compute. intuition discriminate.
  - vm_compute. intuition discriminate.
  - vm_compute. reflexivity.
Defined.

(** * The scraper and the response, against the specification *)

(** ** The samples of a stream, read off its messages *)

Section Scraped.

Local Open Scope string_scope.

Lemma prefix_split (sub s : string) :
  String.prefix sub s = true -> exists r, s = sub ++ r.
Proof.
  revert s. induction sub as [|c sub IH]; intros s H.
  - exists s. now rewrite append_nil.
  - destruct s as [|x s]; [discriminate |]. cbn in H.
    destruct (ascii_dec c x) as [<-|]; [| discriminate].
    destruct (IH s H) as [r ->]. exists r. now rewrite append_cons.
Qed.

Lemma find_from_carries (sub s : string) (i : Z) :
  (0 <= i)%Z -> (0 <= PyStr.find_from sub s i)%Z ->
  exists a r, s = a ++ sub ++ r.
Proof.
  revert i. induction s as [|x s IH]; intros i Hi H; cbn [PyStr.find_from] in H.
  - destruct (String.prefix sub "") eqn:E; [| lia].
    apply prefix_split in E as [r Hr]. exists "", r. now rewrite append_nil.
  - destruct (String.prefix sub (String x s)) eqn:E.
    + apply prefix_split in E as [r Hr]. exists "", r. now rewrite append_nil.
    + destruct (IH (i + 1)%Z) as (a & r & ->); [lia | exact H |].
      exists (String x a), r. now rewrite append_cons.
Qed.

Lemma contains_carries (sub s : string) :
  PyStr.contains sub s = true <-> exists a r, s = a ++ sub ++ r.
Proof.
  split.
  - unfold PyStr.contains, PyStr.find. intros H%Z.leb_le.
    now apply (find_from_carries sub s 0).
  - intros (a & r & ->). apply contains_append.
Qed.

Lemma has_marker_carries (e : LogEvent) :
  has_marker e = true <-> carries_marker (message e).
Proof. apply contains_carries. Qed.

Lemma extract_first (msg payload : string) :
  between_first_parentheses msg payload -> extract msg = payload.
Proof.
  intros (a & c & -> & Ha1 & Ha2 & Hp). now apply extract_between.
Qed.

Lemma scraped_scan (events : list LogEvent) (vs : list float) :
  scraped events vs -> forall acc, scan events acc = inr (acc ++ vs)%list.
Proof.
  induction 1 as [|e events vs Hno _ IH|e events payload v vs Hm Hb Hf _ IH];
    intros acc; cbn [scan].
  - now rewrite app_nil_r.
  - fold (has_marker e). destruct (has_marker e) eqn:E; [| apply IH].
    now apply has_marker_carries in E.
  - fold (has_marker e). rewrite (proj2 (has_marker_carries e) Hm).
    rewrite (extract_first _ _ Hb), Hf, IH. now rewrite <- app_assoc.
Qed.

Lemma zip_range_lookup (vs : list float) (i : nat) (v : float) :
  vs !! i = Some v ->
  zip (Py.range (length vs)) vs !! i = Some (Z.of_nat i, v).
Proof.
  intros Hv. apply lookup_zip_with_Some. exists (Z.of_nat i), v.
  repeat split; [| exact Hv].
  apply range_lookup. eapply lookup_lt_Some, Hv.
Qed.

Lemma zip_range_length (vs : list float) :
  length (zip (Py.range (length vs)) vs) = length vs.
Proof.
  rewrite length_zip_with. unfold Py.range. rewrite length_fmap, length_seq. lia.
Qed.

End Scraped.

(** Builds [scraped events vs] for concrete messages: a message without
    the marker is passed over, one with it is split at its first
    parentheses. *)
Ltac scrape_skip :=
  apply scraped_skip;
  [intros Hc; apply (proj2 (has_marker_carries _)) in Hc;
   vm_compute in Hc; discriminate |].

Ltac scrape_sample before text :=
  apply (scraped_sample _ _ text);
  [exists before, ("(" ++ text ++ ")")%string; reflexivity
  |exists (before ++ "validation mAP <score>=")%string, ""%string;
   split; [reflexivity | vm_compute; intuition discriminate]
  |vm_compute; reflexivity |].

(** C1 as the specification words it fails.  The specification has the
    parser look for "validation mAP <score>=(" and take the number in the
    parentheses that the marker opens.  The notebook looks for the marker
    without its "(" and takes the text between the first "(" and the first
    ")" of the whole message.  On "epoch (3) validation mAP <score>=(0.55)"
    the marker of the specification is there with payload 0.55, and the
    sample of the notebook is 3.0.  On "validation mAP <score>=0.55" the
    marker of the specification is absent, so the message should yield
    nothing; the notebook takes it for a metric line and the call ends in
    [ValueError]. *)
Lemma sample_not_from_marker_payload :
  let w := World [] 0 PNone in
  let e1 := log 1 "epoch (3) validation mAP <score>=(0.55)" in
  let e2 := log 2 "validation mAP <score>=0.55" in
  (PyStr.contains Claimed.marker (message e1) = true /\
   Claimed.payload (message e1) = Some "0.55" /\
   extract (message e1) = "3" /\
   scan [e1] [] = inr [Prim2SF 3%float] /\
   scan [e1] [] <> inr [Prim2SF 0.55%float]) /\
  (PyStr.contains Claimed.marker (message e2) = false /\
   Claimed.payload (message e2) = None /\
   has_marker e2 = true /\
   plot_object_detection_log [e2] "job" w
   = (inl (ValueError_float "validation mAP <score>=0.5"), w)).
Proof.
  intros w e1 e2.
  repeat split; try (vm_compute; reflexivity).
  vm_compute. discriminate.
Qed.

(** C1, as the notebook has it.  A message carries the marker when
    "validation mAP <score>=" occurs in it, and the sample of such a
    message is the float written between the first "(" and the first ")"
    of the whole message.  For every stream whose marked messages are of
    that form, the samples are those floats in arrival order; the call
    returns, plots sample number [i] (counting from 0 among the samples)
    at epoch [i], one point per sample, and prints one maximum, which is
    one of the samples and which no sample is greater than.  On the
    messages "validation mAP <score>=(0.42)", "unrelated",
    "validation mAP <score>=(0.55)" the plotted points are (0, 0.42) and
    (1, 0.55), the printed maximum is 0.55, it is the point of epoch 1
    and of no other epoch, and there are 2 points. *)
Theorem metric_samples_in_arrival_order :
  (forall events vs title w,
      scraped events vs ->
      scan events [] = inr vs /\
      length vs = length (filter has_marker events) /\
      (vs <> [] ->
       exists best new series,
         plot_object_detection_log events title w
         = (inr tt, World (trace w ++ new) (rng_pos w) (dets_obj w)) /\
         plotted new = [series] /\
         length series = length vs /\
         (forall i v, vs !! i = Some v -> series !! i = Some (Z.of_nat i, v)) /\
         maxima new = [best] /\
         In best vs /\
         Forall (fun v => PyNum.fgt v best = false) vs))
  /\
  (forall t1 t2 t3 title w,
      let events := [log t1 "validation mAP <score>=(0.42)";
                     log t2 "unrelated";
                     log t3 "validation mAP <score>=(0.55)"] in
      let v42 := Prim2SF 0.42%float in
      let v55 := Prim2SF 0.55%float in
      scraped events [v42; v55] /\
      exists new series best,
        plot_object_detection_log events title w
        = (inr tt, World (trace w ++ new) (rng_pos w) (dets_obj w)) /\
        plotted new = [series] /\
        maxima new = [best] /\
        series = [(0, v42); (1, v55)] /\
        best = v55 /\
        (forall x, In (x, best) series <-> x = 1) /\
        length series = 2%nat).
Proof.
  assert (General :
            forall events vs title w,
              scraped events vs ->
              scan events [] = inr vs /\
              length vs = length (filter has_marker events) /\
              (vs <> [] ->
               exists best,
                 plot_object_detection_log events title w
                 = (inr tt, World (trace w ++ report title best vs)
                                  (rng_pos w) (dets_obj w)) /\
                 In best vs /\
                 Forall (fun v => PyNum.fgt v best = false) vs)).
  { intros events vs title w H.
    pose proof (scraped_scan events vs H []) as Hs. rewrite app_nil_l in Hs.
    split; [exact Hs | split].
    - apply scan_ok in Hs as (new & -> & HF). rewrite app_nil_l.
      symmetry. exact (Forall2_length _ _ _ HF).
    - intros Hne. destruct (max_nonempty vs Hne) as (best & Hm & Hin).
      exists best. split; [now apply plot_ok | split; [exact Hin |]].
      now apply max_greatest. }
  split.
  - intros events vs title w H.
    destruct (General events vs title w H) as (Hs & Hlen & Hplot).
    split; [exact Hs | split; [exact Hlen |]].
    intros Hne. destruct (Hplot Hne) as (best & Hcall & Hin & Hmax).
    exists best, (report title best vs), (zip (Py.range (length vs)) vs).
    split; [exact Hcall |].
    split; [reflexivity |].
    split; [apply zip_range_length |].
    split; [intros i v; apply zip_range_lookup |].
    split; [reflexivity | split; assumption].
  - intros t1 t2 t3 title w events v42 v55.
    assert (H : scraped events [v42; v55]).
    { subst events v42 v55.
      scrape_sample ""%string "0.42"%string.
      scrape_skip.
      scrape_sample ""%string "0.55"%string.
      constructor. }
    split; [exact H |].
    destruct (General events [v42; v55] title w H) as (Hs & _ & _).
    exists (report title v55 [v42; v55]), [(0, v42); (1, v55)], v55.
    split; [apply plot_ok; [exact Hs | vm_compute; reflexivity] |].
    split; [reflexivity |].
    split; [reflexivity |].
    split; [reflexivity |].
    split; [reflexivity |].
    split; [| reflexivity].
    intros x. split.
    + intros [Hx|[Hx|[]]].
      * exfalso. injection Hx as _ Hx. vm_compute in Hx. discriminate.
      * now injection Hx.
    + intros ->. right. now left.
Qed.

Lemma metric_samples_in_arrival_order_witness :
  let events := [log 1 "epoch (3) validation mAP <score>=(0.42)";
                 log 2 "unrelated";
                 log 3 "validation mAP <score>=(0.55) (best)"] in
  let vs := [Prim2SF 3%float; Prim2SF 0.55%float] in
  scraped events vs /\
  scan events [] = inr vs /\
  length vs = length (filter has_marker events).
Proof.
  intros events vs.
  assert (H : scraped events vs).
  { subst events vs.
    apply (scraped_sample _ _ "3"%string);
      [exists "epoch (3) "%string, "(0.42)"%string; reflexivity
      |exists "epoch "%string, " validation mAP <score>=(0.42)"%string;
       split; [reflexivity | vm_compute; intuition discriminate]
      |vm_compute; reflexivity |].
    scrape_skip.
    apply (scraped_sample _ _ "0.55"%string);
      [exists ""%string, "(0.55) (best)"%string; reflexivity
      |exists "validation mAP <score>="%string, " (best)"%string;
       split; [reflexivity | vm_compute; intuition discriminate]
      |vm_compute; reflexivity |].
    constructor. }
  split; [exact H |].
  destruct (proj1 metric_samples_in_arrival_order events vs "job"
                  (World [] 0 PNone) H) as (Hs & Hlen & _).
  split; assumption.
Defined.

(** ** The response handed to the renderer *)

(** C7, as the notebook has it.  [show_hb_prediction] validates nothing.
    It reads the value under "prediction" and hands it unchanged, in
    response order, to [visualize_detection].  A response that is not an
    object raises [TypeError] and an object without that key [KeyError],
    both before anything is drawn; a value under the key that is not
    iterable raises [TypeError] once the image is shown.  A row is looked
    at only when the loop reaches it: a row that is not iterable raises
    [TypeError]; an iterable row, be it a list, a string or an object,
    that does not hold exactly six items raises [ValueError]; a list of
    six values whose score is a float, an int or a bool below the
    threshold is skipped whatever its other five values are, and one whose
    score is not a number raises [TypeError].  For rows of floats the
    rectangles follow the order of the response. *)
Theorem response_not_validated :
  forall random_stream img classes thresh filename w,
    (forall response dets,
        Py.getitem_str response "prediction" = inr dets ->
        show_hb_prediction random_stream img classes thresh filename response w
        = visualize_detection random_stream img classes thresh filename dets w) /\
    (forall d,
        Py.assoc "prediction" d = None ->
        show_hb_prediction random_stream img classes thresh filename (PDict d) w
        = (inl (KeyError "prediction"), w)) /\
    (forall response,
        (forall d, response <> PDict d) ->
        show_hb_prediction random_stream img classes thresh filename response w
        = (inl TypeError_subscript, w)) /\
    (forall d dets,
        Py.assoc "prediction" d = Some dets ->
        iterable dets = false ->
        show_hb_prediction random_stream img classes thresh filename (PDict d) w
        = (inl TypeError_not_iterable,
           World (trace w ++ [Imshow filename]) (rng_pos w) dets)) /\
    (forall det l,
        iterable det = false ->
        body random_stream img classes thresh det l w
        = (inl TypeError_not_iterable, w)) /\
    (forall det l,
        iterable det = true ->
        py_len det <> 6%nat ->
        body random_stream img classes thresh det l w
        = (inl (ValueError_unpack (py_len det)), w)) /\
    (forall k s a b c d l,
        PyNum.flt s thresh = true ->
        body random_stream img classes thresh (PList [k; PFloat s; a; b; c; d]) l w
        = (inr l, w)) /\
    (forall k z a b c d l,
        PyNum.Z_lt_float z thresh = true ->
        body random_stream img classes thresh (PList [k; PInt z; a; b; c; d]) l w
        = (inr l, w)) /\
    (forall k (t : bool) a b c d l,
        PyNum.Z_lt_float (if t then 1 else 0) thresh = true ->
        body random_stream img classes thresh (PList [k; PBool t; a; b; c; d]) l w
        = (inr l, w)) /\
    (forall k s a b c d l,
        number s = false ->
        body random_stream img classes thresh (PList [k; s; a; b; c; d]) l w
        = (inl TypeError_not_comparable, w)) /\
    (forall ds ps,
        Forall2 (fun d p => plan img classes d = Some p) (kept thresh ds) ps ->
        exists new pos',
          show_hb_prediction random_stream img classes thresh filename
                             (PDict [("prediction", PList (row <$> ds))]) w
          = (inr tt, World (trace w ++ new) pos' (PList (row <$> ds))) /\
          rectangles new = geometry <$> ps).
Proof.
  intros rs img classes thresh filename w.
  assert (Hlen : forall items : list pyval,
             length items <> 6%nat ->
             match items with
             | [a; b; c; d; e; f] => inr (a, b, c, d, e, f)
             | _ => inl (ValueError_unpack (length items))
             end
             = inl (ValueError_unpack (length items))
               :> exn + (pyval * pyval * pyval * pyval * pyval * pyval)).
  { intros items H.
    do 7 (destruct items as [|? items]; try reflexivity). now destruct H. }
  repeat apply conj.
  - intros response dets H. unfold show_hb_prediction, bind, lift.
    now rewrite H.
  - intros d H. unfold show_hb_prediction, bind, lift. cbn. now rewrite H.
  - intros response H. unfold show_hb_prediction, bind, lift.
    destruct response; try reflexivity. now destruct (H d).
  - intros d dets H Hit. unfold show_hb_prediction, bind, lift.
    cbn [Py.getitem_str]. rewrite H. rewrite visualize_detection_iter.
    destruct dets; try discriminate; reflexivity.
  - intros det l Hit. apply body_unpack_error.
    destruct det; try discriminate; reflexivity.
  - intros det l Hit Hsize. apply body_unpack_error.
    unfold Py.unpack6.
    destruct det as [| | | |s|items|d]; try discriminate;
      cbn [Py.iter py_len] in *.
    + set (items := map _ _).
      assert (E : length items = String.length s).
      { subst items. rewrite length_map. clear.
        induction s as [|c s IH]; [reflexivity | cbn; now rewrite IH]. }
      rewrite <- E in *. exact (Hlen items Hsize).
    + exact (Hlen items Hsize).
    + set (items := map _ _).
      assert (E : length items = length d) by (subst items; apply length_map).
      rewrite <- E in *. exact (Hlen items Hsize).
  - intros k s a b c d [colors n] H. unfold body, bind, lift.
    cbn [Py.unpack6 Py.iter Py.lt_float]. now rewrite H.
  - intros k z a b c d [colors n] H. unfold body, bind, lift.
    cbn [Py.unpack6 Py.iter Py.lt_float]. now rewrite H.
  - intros k t a b c d [colors n] H. unfold body, bind, lift.
    cbn [Py.unpack6 Py.iter Py.lt_float]. unfold Py.of_bool. now rewrite H.
  - intros k s a b c d [colors n] H. unfold body, bind, lift.
    cbn [Py.unpack6 Py.iter].
    destruct s; try discriminate; reflexivity.
  - intros ds ps HF.
    pose proof (render_rows rs img classes thresh filename ds ps w HF) as Hr.
    pose proof (paint_rectangles rs (zip ps (score <$> kept thresh ds)) ∅
                                 (rng_pos w)) as Hrect.
    rewrite (zip_fst_scores img classes _ _ HF) in Hrect.
    destruct (paint rs _ ∅ (rng_pos w)) as [[evs c'] pos'].
    cbn [fst] in Hrect.
    exists (Imshow filename :: evs ++ [PrintCount (Z.of_nat (length ps)); Show]), pos'.
    split.
    + unfold show_hb_prediction, bind, lift. cbn [Py.getitem_str Py.assoc].
      cbn. exact Hr.
    + unfold rectangles in *.
      change (Imshow filename :: ?l) with ([Imshow filename] ++ l).
      rewrite !omap_app, Hrect. cbn. now rewrite app_nil_r.
Qed.

Lemma response_not_validated_witness :
  let dec := PyNum.of_decimal false in
  let w := World [] 0 PNone in
  let img := {| height := 512; width := 512 |} in
  let call := show_hb_prediction (fun _ => dec 5 (-1)) img [] (dec 4 (-1)) "img.png" in
  let pass := body (fun _ => dec 5 (-1)) img [] (dec 4 (-1)) in
  call (PDict [("status", PStr "ok")]) w = (inl (KeyError "prediction"), w) /\
  call (PDict [("prediction", PInt 5)]) w
  = (inl TypeError_not_iterable, World [Imshow "img.png"] 0 (PInt 5)) /\
  pass (PInt 5) (∅, 0) w = (inl TypeError_not_iterable, w) /\
  pass (PStr "bird") (∅, 0) w = (inl (ValueError_unpack 4), w) /\
  pass (PList [PNone; PFloat (dec 1 (-1)); PStr "a"; PNone; PNone; PNone]) (∅, 0) w
  = (inr (∅, 0), w) /\
  pass (PList [PNone; PInt 0; PStr "a"; PNone; PNone; PNone]) (∅, 0) w
  = (inr (∅, 0), w) /\
  pass (PList [PNone; PBool false; PStr "a"; PNone; PNone; PNone]) (∅, 0) w
  = (inr (∅, 0), w) /\
  pass (PList [PInt 0; PStr "0.9"; PInt 0; PInt 0; PInt 1; PInt 1]) (∅, 0) w
  = (inl TypeError_not_comparable, w).
Proof.
  intros dec w img call pass.
  destruct (response_not_validated (fun _ => dec 5 (-1)) img [] (dec 4 (-1))
                                   "img.png" w)
    as (_ & Hkey & _ & Hval & Hrow & Hsix & Hflt & Hint & Hbool & Hnum & _).
  repeat apply conj.
  - apply Hkey. reflexivity.
  - apply (Hval [("prediction", PInt 5)] (PInt 5)); reflexivity.
  - apply Hrow. reflexivity.
  - apply (Hsix (PStr "bird")); [reflexivity | cbn; lia].
  - apply Hflt. vm_compute. reflexivity.
  - apply Hint. vm_compute. reflexivity.
  - apply (Hbool PNone false). vm_compute. reflexivity.
  - apply Hnum. reflexivity.
Defined.
